(** * Dreamers AgriTech backend: phase manager and feedback processor

    A shallow embedding of
    - [backend/services/phase_manager.py] (class [PhaseManager]) and
    - [backend/services/feedback_processor.py] (class [FeedbackProcessor]),
    followed by the properties of the crop-season lifecycle, of the
    keyword fallback and of the impact table.

    Conventions of the embedding.
    - A Python [dict] with string keys is a [gmap string value]; a MongoDB
      collection is a [gmap oid document]; the database handle is a map from
      collection names to collections.
    - Python exceptions are the [Raise] results of the [result] monad.
    - [datetime.utcnow()] is an explicit argument: the clock reading, in
      microseconds since the epoch; a method that reads the clock more than
      once has one argument for each reading.
    - An [await] is a plain call: nothing else writes to the database while
      a method runs.
    - A [str] is the [string] of its UTF-8 bytes; [str.strip] removes the
      Unicode white space, [str.lower] acts on the ASCII letters.
    - A Python [float] in a document is a binary64 number of [SpecFloat],
      NaN and the infinities included; the one product that the code forms,
      [min_days * 0.9], is computed on rationals and shown to be exact.
    - A document is the [dict] that [find_one] returns; its [_id], which is
      always there, need not be listed.
    - Calls into code outside the two files (the ISO date parser, the JSON
      parser, the task service) are the methods of the class [Externals];
      the reply of the language-model service is an argument. *)

From Stdlib Require Import ZArith QArith String Ascii List.
From Stdlib Require Import SpecFloat DecimalString.
From stdpp Require Import base gmap strings option list relations.

Open Scope string_scope.
Open Scope list_scope.
Open Scope Z_scope.

(** ** Python values and exceptions *)

Module Py.

Inductive exn :=
| InvalidId        (* bson.errors.InvalidId *)
| TypeError
| ValueError
| AttributeError
| ServiceError.    (* any exception of an external service *)

Inductive result (A : Type) :=
| Ok (a : A)
| Raise (e : exn).
Arguments Ok {A} a.
Arguments Raise {A} e.

Definition bind {A B} (m : result A) (k : A → result B) : result B :=
  match m with
  | Ok a => k a
  | Raise e => Raise e
  end.

(** A naive [datetime] is its number of microseconds since the epoch; an
    aware one also carries a time zone, which the code never reads. *)
Inductive datetime :=
| Naive (us : Z)
| Aware (us : Z).

(** Binary64 numbers, after [SpecFloat]. *)
Definition binary64_of_int (n : Z) : spec_float :=
  binary_normalize 53 1024 n 0 false.

Definition binary64_mul : spec_float → spec_float → spec_float :=
  SFmul 53 1024.

(** The literal [0.9], that is 0x1.ccccccccccccdp-1. *)
Definition binary64_0_9 : spec_float :=
  S754_finite false 8106479329266893 (-53).

(** The rational that a finite binary64 number denotes. *)
Definition binary64_value (x : spec_float) : option Q :=
  match x with
  | S754_zero _ => Some 0%Q
  | S754_finite s m e =>
      let n := if s then Z.neg m else Z.pos m in
      Some (match e with
            | Z.neg k => n # (2 ^ k)
            | _ => inject_Z (n * 2 ^ e)
            end)
  | _ => None
  end.

(** [x < n] for a [float] [x] and an [int] [n]: Python compares the two
    exactly; every comparison with NaN is false. *)
Definition float_lt_int (x : spec_float) (n : Z) : bool :=
  match x with
  | S754_nan => false
  | S754_infinity negative => negative
  | _ =>
      match binary64_value x with
      | Some q => negb (Qle_bool (inject_Z n) q)
      | None => false
      end
  end.

#[warnings="-register-all"] Inductive value :=
| VNone
| VBool (b : bool)
| VInt (n : Z)
| VFloat (x : spec_float)
| VStr (s : string)
| VDatetime (t : datetime)
| VObjectId (o : string)
| VList (l : list value)
| VDict (d : gmap string value).

(** [v == s] for a [str] literal [s]: only an equal [str] compares equal. *)
Definition eq_str (v : value) (s : string) : bool :=
  match v with
  | VStr s' => bool_decide (s' = s)
  | _ => false
  end.

(** [v < n] for an [int] literal [n]: numbers compare by value ([bool] is
    an [int]); anything else raises [TypeError]. *)
Definition lt_int (v : value) (n : Z) : result bool :=
  match v with
  | VInt h => Ok (h <? n)
  | VBool b => Ok (Z.b2z b <? n)
  | VFloat x => Ok (float_lt_int x n)
  | _ => Raise TypeError
  end.

(** [n < x] for an [int] [n] and a [float] [x]; Python compares the two
    exactly. *)
Definition int_lt_float (n : Z) (x : Q) : bool :=
  negb (Qle_bool x (inject_Z n)).

(** [n * x] for an [int] [n] and a [float] [x]. *)
Definition int_mul_float (n : Z) (x : Q) : Q := (inject_Z n * x)%Q.

(** Two scalars of the same type and value. *)
Definition same_scalar (v w : value) : bool :=
  match v, w with
  | VNone, VNone => true
  | VBool a, VBool b => bool_decide (a = b)
  | VInt a, VInt b => bool_decide (a = b)
  | VStr a, VStr b => bool_decide (a = b)
  | VDatetime (Naive a), VDatetime (Naive b) => bool_decide (a = b)
  | _, _ => false
  end.

(** *** [str] methods *)

Definition lower_char (c : ascii) : ascii :=
  let n := N_of_ascii c in
  if ((65 <=? n) && (n <=? 90))%N then ascii_of_N (n + 32) else c.

Fixpoint lower (s : string) : string :=
  match s with
  | EmptyString => EmptyString
  | String c s' => String (lower_char c) (lower s')
  end.

Definition startswith (s p : string) : bool := String.prefix p s.

Definition endswith (s p : string) : bool :=
  String.prefix (String.rev p) (String.rev s).

(** [sub in s] *)
Fixpoint contains (s sub : string) : bool :=
  String.prefix sub s ||
  match s with
  | EmptyString => false
  | String _ s' => contains s' sub
  end.

(** [s[n:]] and [s[:-n]] *)
Fixpoint drop (n : nat) (s : string) : string :=
  match n, s with
  | O, _ => s
  | S n', String _ s' => drop n' s'
  | S _, EmptyString => EmptyString
  end.

Definition drop_end (n : nat) (s : string) : string :=
  String.rev (drop n (String.rev s)).

(** The characters that [str.isspace] accepts, by the length of their
    UTF-8 encoding: U+0009 to U+000D and U+001C to U+0020; *)
Definition isspace (c : ascii) : bool :=
  let n := N_of_ascii c in
  (((9 <=? n) && (n <=? 13)) || ((28 <=? n) && (n <=? 32)))%N.

(** U+0085 and U+00A0; *)
Definition isspace2 (c1 c2 : ascii) : bool :=
  let a := N_of_ascii c1 in
  let b := N_of_ascii c2 in
  ((a =? 194) && ((b =? 133) || (b =? 160)))%N.

(** U+1680, U+2000 to U+200A, U+2028, U+2029, U+202F, U+205F and U+3000. *)
Definition isspace3 (c1 c2 c3 : ascii) : bool :=
  let a := N_of_ascii c1 in
  let b := N_of_ascii c2 in
  let c := N_of_ascii c3 in
  (((a =? 225) && (b =? 154) && (c =? 128))
   || ((a =? 226) && (b =? 128) &&
       (((128 <=? c) && (c <=? 138)) || (c =? 168) || (c =? 169)
        || (c =? 175)))
   || ((a =? 226) && (b =? 129) && (c =? 159))
   || ((a =? 227) && (b =? 128) && (c =? 128)))%N.

Fixpoint lstrip (s : string) : string :=
  match s with
  | EmptyString => EmptyString
  | String c1 s1 =>
      if isspace c1 then lstrip s1
      else
        match s1 with
        | String c2 s2 =>
            if isspace2 c1 c2 then lstrip s2
            else
              match s2 with
              | String c3 s3 => if isspace3 c1 c2 c3 then lstrip s3 else s
              | EmptyString => s
              end
        | EmptyString => s
        end
  end.

(** [lstrip] on a text whose bytes are in reverse order. *)
Fixpoint lstrip_reversed (s : string) : string :=
  match s with
  | EmptyString => EmptyString
  | String c1 s1 =>
      if isspace c1 then lstrip_reversed s1
      else
        match s1 with
        | String c2 s2 =>
            if isspace2 c2 c1 then lstrip_reversed s2
            else
              match s2 with
              | String c3 s3 =>
                  if isspace3 c3 c2 c1 then lstrip_reversed s3 else s
              | EmptyString => s
              end
        | EmptyString => s
        end
  end.

Definition rstrip (s : string) : string :=
  String.rev (lstrip_reversed (String.rev s)).

Definition strip (s : string) : string := rstrip (lstrip s).

(** [any(k in s for k in keywords)] *)
Definition any_in (keywords : list string) (s : string) : bool :=
  existsb (contains s) keywords.

(** [field in v]: a key of a [dict], an element of a [list], a substring
    of a [str]; other values raise [TypeError]. *)
Definition py_in (field : string) (v : value) : result bool :=
  match v with
  | VDict d => Ok (bool_decide (is_Some (d !! field)))
  | VList l => Ok (existsb (λ x, eq_str x field) l)
  | VStr s => Ok (contains s field)
  | _ => Raise TypeError
  end.

(** [v[field] = x] for a [str] key: only a [dict] accepts it. *)
Definition setitem (v : value) (field : string) (x : value) : result value :=
  match v with
  | VDict d => Ok (VDict (<[field := x]> d))
  | _ => Raise TypeError
  end.

(** *** [datetime] arithmetic *)

Definition us_per_day : Z := 86400 * 1000000.

(** [(now - t).days] for the naive [now] of [datetime.utcnow()]: the
    difference is normalised with a floor division; subtracting an aware
    [datetime] from a naive one raises [TypeError]. *)
Definition days_since (now : Z) (t : datetime) : result Z :=
  match t with
  | Naive us => Ok ((now - us) / us_per_day)
  | Aware _ => Raise TypeError
  end.

End Py.

Import Py.

#[global] Instance result_bind : MBind result := λ A B k m, Py.bind m k.
#[global] Instance result_ret : MRet result := @Py.Ok.

Abbreviation document := (gmap string value).

(** ** [bson.ObjectId] and the database handle *)

Module Bson.

(** The 12-byte binary form of an id. *)
Abbreviation oid := string.

Definition hex_digit (c : ascii) : option N :=
  let n := N_of_ascii c in
  if ((48 <=? n) && (n <=? 57))%N then Some (n - 48)%N
  else if ((97 <=? n) && (n <=? 102))%N then Some (n - 87)%N
  else if ((65 <=? n) && (n <=? 70))%N then Some (n - 55)%N
  else None.

(** [Py_ISSPACE] *)
Definition c_isspace (c : ascii) : bool :=
  let n := N_of_ascii c in
  (((9 <=? n) && (n <=? 13)) || (n =? 32))%N.

(** [bytes.fromhex]: pairs of hexadecimal digits, white space allowed
    between the pairs. *)
Fixpoint fromhex (s : string) : option string :=
  match s with
  | EmptyString => Some EmptyString
  | String c rest =>
      if c_isspace c then fromhex rest
      else
        match hex_digit c, rest with
        | Some top, String c' rest' =>
            match hex_digit c' with
            | Some bot =>
                String (ascii_of_N (16 * top + bot)) <$> fromhex rest'
            | None => None
            end
        | _, _ => None
        end
  end.

(** [ObjectId(s)] for a [str]: 24 characters that [bytes.fromhex] reads,
    [InvalidId] otherwise. *)
Definition ObjectId (s : string) : result oid :=
  if (String.length s =? 24)%nat then
    match fromhex s with
    | Some b => Ok b
    | None => Raise InvalidId
    end
  else Raise InvalidId.

(** BSON stores a date as a whole number of milliseconds. *)
Definition bson_datetime (us : Z) : datetime := Naive (us / 1000 * 1000).

End Bson.

Import Bson.

Abbreviation collection := (gmap oid document).
Abbreviation database := (gmap string collection).

(** ** Code outside the two files *)

Class Externals := {
  (* datetime.fromisoformat: the parsed date, or ValueError *)
  fromisoformat : string → result datetime;
  (* json.loads: the decoded value, or ValueError *)
  json_loads : string → result value;
  (* TaskService(db).get_pending_tasks(season_id) of
     services/task_service.py: the pending task documents of the season *)
  get_pending_tasks : database → string → result (list document)
}.

(** ** [PhaseManager] *)

Module PhaseManager.
Section WithExternals.
Context `{Externals}.

Definition PHASES : list string :=
  ["pre_sowing"; "growth"; "harvest"; "completed"].

Record duration_info := {
  growth_days : Z;
  harvest_window : Z
}.

Definition CROP_DURATIONS : gmap string duration_info :=
  list_to_map [
    ("rice",      {| growth_days := 120; harvest_window := 7 |});
    ("wheat",     {| growth_days := 120; harvest_window := 7 |});
    ("moong_dal", {| growth_days := 60;  harvest_window := 5 |});
    ("cotton",    {| growth_days := 150; harvest_window := 14 |});
    ("tomato",    {| growth_days := 75;  harvest_window := 10 |});
    ("cucumber",  {| growth_days := 55;  harvest_window := 7 |});
    ("lettuce",   {| growth_days := 45;  harvest_window := 5 |});
    ("default",   {| growth_days := 90;  harvest_window := 7 |})
  ].

(** [CROP_DURATIONS["default"]] *)
Definition default_duration : duration_info :=
  {| growth_days := 90; harvest_window := 7 |}.

(** [self.seasons_collection = db.crop_seasons] *)
Definition seasons_collection (db : database) : collection :=
  default ∅ (db !! "crop_seasons").

(** [await collection.find_one({"_id": oid})] *)
Definition find_one (c : collection) (o : oid) : option document := c !! o.

(** The document on which [if not season] falls through. [find_one]
    returns [None] or a document, and a document holds at least its [_id],
    so that it is never the empty, false [dict]: the test is false exactly
    for [None]. *)
Definition truthy (season : option document) : option document :=
  match season with
  | None => None
  | Some d => Some d
  end.

(** [k in season] *)
Definition has_key (k : string) (season : document) : bool :=
  bool_decide (is_Some (season !! k)).

(** [start_date = season["start_date"]], parsed when it is a [str], then
    [(datetime.utcnow() - start_date).days] (lines 59-63, again at 123-127). *)
Definition days_elapsed_of (now : Z) (start_date : value) : result Z :=
  start_date ←
    match start_date with
    | VStr s => fromisoformat s
    | VDatetime t => Ok t
    | _ => Raise TypeError      (* the subtraction below fails *)
    end;
  days_since now start_date.

(** [season.get("crop_type", "default").lower()] *)
Definition crop_type_of (season : document) : result string :=
  match default (VStr "default") (season !! "crop_type") with
  | VStr s => Ok (lower s)
  | _ => Raise AttributeError
  end.

(** [self.CROP_DURATIONS.get(crop_type, self.CROP_DURATIONS["default"])] *)
Definition duration_for (crop_type : string) : duration_info :=
  default default_duration (CROP_DURATIONS !! crop_type).

Definition get_current_phase (db : database) (season_id : string) (now : Z)
  : result value :=
  o ← ObjectId season_id;
  match truthy (find_one (seasons_collection db) o) with
  | None => Ok (VStr "pre_sowing")
  | Some season =>
      (* If manually set, return that *)
      match season !! "current_phase" with
      | Some phase => Ok phase
      | None =>
          (* Calculate based on dates *)
          match season !! "start_date" with
          | None => Ok (VStr "pre_sowing")
          | Some start_date =>
              days_elapsed ← days_elapsed_of now start_date;
              crop_type ← crop_type_of season;
              let duration_info := duration_for crop_type in
              let growth_days := growth_days duration_info in
              let harvest_window := harvest_window duration_info in
              if days_elapsed <? 0 then Ok (VStr "pre_sowing")
              else if days_elapsed <? growth_days then Ok (VStr "growth")
              else if days_elapsed <? growth_days + harvest_window
                   then Ok (VStr "harvest")
              else Ok (VStr "completed")
          end
      end
  end.

(** The [$set] operator: the listed fields replace those of the document. *)
Definition set_fields (fields : list (string * value)) (d : document)
  : document :=
  list_to_map fields ∪ d.

(** [await db[name].update_one({"_id": o}, {"$set": fields})] for scalar
    field values: the new database and [modified_count], which is 0 when
    no document matches or the matched document already holds the fields. *)
Definition update_one (db : database) (name : string) (o : oid)
    (fields : list (string * value)) : database * Z :=
  let c := default ∅ (db !! name) in
  match c !! o with
  | None => (db, 0)
  | Some d =>
      if forallb (λ kv, match d !! kv.1 with
                        | Some v => same_scalar v kv.2
                        | None => false
                        end) fields
      then (db, 0)
      else (<[name := <[o := set_fields fields d]> c]> db, 1)
  end.

(** The [$set] document of [update_phase]; [now] is [datetime.utcnow()]. *)
Definition phase_update (new_phase : string) (now : Z)
  : list (string * value) :=
  [ ("current_phase", VStr new_phase);
    ("phase_updated_at", VDatetime (bson_datetime now)) ].

Definition update_phase (db : database) (season_id new_phase : string)
    (now : Z) : result (bool * database) :=
  if negb (bool_decide (new_phase ∈ PHASES)) then Ok (false, db)
  else
    o ← ObjectId season_id;
    let '(db', modified_count) :=
      update_one db "crop_seasons" o (phase_update new_phase now) in
    Ok (0 <? modified_count, db').

(** The entries of the [reasons] list, one constructor per message
    template of [can_transition_to_harvest]. *)
Inductive reason :=
| SeasonNotFound                    (* "Season not found" *)
| CropTooYoung (more_days : Z)      (* "Crop too young (needs ~{} more days)" *)
| CropAge (days : Z)                (* "Crop age: {} days" *)
| StartDateNotSet                   (* "Start date not set" *)
| HealthTooLow (health : value)     (* "Health too low: {}/100" *)
| HealthOk (health : value)         (* "Health: {}/100" *)
| CriticalPending (n : nat)         (* "{} critical tasks pending" *)
| NoCriticalPending.                (* "No critical tasks pending" *)

Record readiness := {
  ready : bool;
  reasons : list reason;
  recommendation : option string    (* absent from the "not found" reply *)
}.

(** [[t for t in pending_tasks if t.get("priority") == "critical"]] *)
Definition critical_tasks (pending_tasks : list document) : list document :=
  List.filter (λ t : document, eq_str (default VNone (t !! "priority")) "critical")
              pending_tasks.

Definition can_transition_to_harvest (db : database) (season_id : string)
    (now : Z) : result readiness :=
  o ← ObjectId season_id;
  match truthy (find_one (seasons_collection db) o) with
  | None =>
      Ok {| ready := false; reasons := [SeasonNotFound];
            recommendation := None |}
  | Some season =>
      let reasons : list reason := [] in
      let ready := true in
      (* Check age *)
      '(ready, reasons) ←
        match season !! "start_date" with
        | Some start_date =>
            days_elapsed ← days_elapsed_of now start_date;
            crop_type ← crop_type_of season;
            let min_days := growth_days (duration_for crop_type) in
            if int_lt_float days_elapsed (int_mul_float min_days 0.9)
            then Ok (false, reasons ++ [CropTooYoung (min_days - days_elapsed)])
            else Ok (ready, reasons ++ [CropAge days_elapsed])
        | None => Ok (false, reasons ++ [StartDateNotSet])
        end;
      (* Check health score (if available) *)
      '(ready, reasons) ←
        match season !! "health_score" with
        | Some health =>
            low ← lt_int health 50;
            if low : bool then Ok (false, reasons ++ [HealthTooLow health])
            else Ok (ready, reasons ++ [HealthOk health])
        | None => Ok (ready, reasons)
        end;
      (* Check if there are critical pending tasks *)
      pending_tasks ← get_pending_tasks db season_id;
      let critical_tasks := critical_tasks pending_tasks in
      let '(ready, reasons) :=
        match critical_tasks with
        | _ :: _ =>
            (false, reasons ++ [CriticalPending (length critical_tasks)])
        | [] => (ready, reasons ++ [NoCriticalPending])
        end in
      Ok {| ready := ready; reasons := reasons;
            recommendation :=
              Some (if ready then "Can transition to harvest"
                    else "Continue growth phase") |}
  end.

(** The three clock readings are those of [get_current_phase], of
    [can_transition_to_harvest] and of [update_phase], in this order. *)
Definition auto_transition_phases (db : database) (season_id : string)
    (t_phase t_check t_write : Z) : result (option string * database) :=
  current_phase ← get_current_phase db season_id t_phase;
  if eq_str current_phase "pre_sowing" then
    (* Check if season has started (has start_date) *)
    o ← ObjectId season_id;
    match truthy (find_one (seasons_collection db) o) with
    | Some season =>
        if has_key "start_date" season then
          '(_, db') ← update_phase db season_id "growth" t_write;
          Ok (Some "growth", db')
        else Ok (None, db)
    | None => Ok (None, db)
    end
  else if eq_str current_phase "growth" then
    (* Check if ready for harvest *)
    readiness ← can_transition_to_harvest db season_id t_check;
    if ready readiness then
      '(_, db') ← update_phase db season_id "harvest" t_write;
      Ok (Some "harvest", db')
    else Ok (None, db)
  else if eq_str current_phase "harvest" then
    (* Check if harvest is complete (has actual_harvest_date) *)
    o ← ObjectId season_id;
    match truthy (find_one (seasons_collection db) o) with
    | Some season =>
        if has_key "actual_harvest_date" season then
          '(_, db') ← update_phase db season_id "completed" t_write;
          Ok (Some "completed", db')
        else Ok (None, db)
    | None => Ok (None, db)
    end
  else Ok (None, db).

End WithExternals.
End PhaseManager.

(** ** [FeedbackProcessor] *)

Module FeedbackProcessor.
Section WithExternals.
Context `{Externals}.

Definition required_fields : list string :=
  ["completed_as_planned"; "actual_action"; "is_deviation"; "severity"].

(** The loop [for field in required_fields: if field not in result:
    result[field] = None]. *)
Fixpoint validate (fields : list string) (res : value) : result value :=
  match fields with
  | [] => Ok res
  | field :: fields' =>
      present ← py_in field res;
      res ← (if present : bool then Ok res else setitem res field VNone);
      validate fields' res
  end.

Definition completion_keywords : list string :=
  ["done"; "completed"; "did it"; "finished"; "applied"; "yes"].

Definition deviation_keywords : list string :=
  ["instead"; "different"; "couldn't"; "forgot"; "didn't"; "other"].

Definition _fallback_analysis (planned_action farmer_response : string)
  : document :=
  let response_lower := lower farmer_response in
  (* Check for completion keywords *)
  let completed := any_in completion_keywords response_lower in
  (* Check for deviation keywords *)
  let has_deviation := any_in deviation_keywords response_lower in
  if completed && negb has_deviation then
    list_to_map [
      ("completed_as_planned", VBool true);
      ("actual_action", VStr planned_action);
      ("is_deviation", VBool false);
      ("deviation_type", VStr "none");
      ("severity", VStr "none");
      ("impact_summary", VStr "Task completed as planned");
      ("requires_agent_response", VBool false) ]
  else
    list_to_map [
      ("completed_as_planned", VBool false);
      ("actual_action", VStr farmer_response);
      ("is_deviation", VBool true);
      ("deviation_type", VStr "unknown");
      ("severity", VStr "moderate");
      ("impact_summary",
       VStr "Farmer response indicates possible deviation - manual review needed");
      ("requires_agent_response", VBool true) ].

(** The text handed to [json.loads]: the stripped reply without its
    markdown code fence (lines 111-121). *)
Definition strip_code_fence (content : string) : string :=
  let result_text := strip content in
  (* Remove markdown code blocks if present *)
  let result_text :=
    if startswith result_text "```json" then drop 7 result_text
    else result_text in
  let result_text :=
    if startswith result_text "```" then drop 3 result_text
    else result_text in
  let result_text :=
    if endswith result_text "```" then drop_end 3 result_text
    else result_text in
  strip result_text.

(** The body of the [try] block, after the request: [reply] is
    [response.choices[0].message.content], or the exception of the call. *)
Definition parse_reply (reply : result string) : result value :=
  content ← reply;
  res ← json_loads (strip_code_fence content);
  (* Validate required fields *)
  validate required_fields res.

Definition analyze_feedback (reply : result string)
    (planned_action farmer_response task_description : string) : value :=
  match parse_reply reply with
  | Ok res => res
  | Raise _ =>
      (* Fallback: simple keyword-based analysis *)
      VDict (_fallback_analysis planned_action farmer_response)
  end.

(** The inner dictionaries [{"yield": ..., "timeline": ...}]. *)
Record impact := {
  yield : Z;
  timeline : Z
}.

(** Impact lookup table (rough estimates) *)
Definition impact_table : gmap string (gmap string impact) :=
  list_to_map [
    ("fertilizer_change", list_to_map [
       ("minor",    {| yield := -2;  timeline := 0 |});
       ("moderate", {| yield := -10; timeline := 3 |});
       ("major",    {| yield := -20; timeline := 7 |}) ]);
    ("delay", list_to_map [
       ("minor",    {| yield := -1;  timeline := 1 |});
       ("moderate", {| yield := -5;  timeline := 3 |});
       ("major",    {| yield := -15; timeline := 7 |}) ]);
    ("method_change", list_to_map [
       ("minor",    {| yield := -3;  timeline := 0 |});
       ("moderate", {| yield := -8;  timeline := 2 |});
       ("major",    {| yield := -12; timeline := 5 |}) ]);
    ("quantity_change", list_to_map [
       ("minor",    {| yield := -2;  timeline := 0 |});
       ("moderate", {| yield := -7;  timeline := 1 |});
       ("major",    {| yield := -15; timeline := 3 |}) ])
  ].

Definition calculate_impact_metrics
    (deviation_type severity crop_type : string) : document :=
  let impact :=
    default {| yield := 0; timeline := 0 |}
            (default ∅ (impact_table !! deviation_type) !! severity) in
  list_to_map [
    ("estimated_yield_change_percent", VInt (yield impact));
    ("estimated_timeline_change_days", VInt (timeline impact));
    ("confidence", VStr "low")   (* Since these are rough estimates *)
  ].

End WithExternals.
End FeedbackProcessor.

(** ** Vocabulary of the properties *)

Module Vocabulary.
Section WithExternals.
Context `{Externals}.

Import PhaseManager.

(** The document that the query [{"_id": ObjectId(season_id)}] matches. *)
Definition stored (db : database) (season_id : string) (season : document)
  : Prop :=
  ∃ o, ObjectId season_id = Ok o ∧ seasons_collection db !! o = Some season.

(** A [start_date] field that denotes the instant [t]: a naive [datetime],
    or a [str] that [fromisoformat] reads as one. *)
Inductive start_instant : value → Z → Prop :=
| instant_datetime t : start_instant (VDatetime (Naive t)) t
| instant_iso s t :
    fromisoformat s = Ok (Naive t) → start_instant (VStr s) t.

(** Whole days from [t] to [now]. *)
Definition elapsed_days (now t : Z) : Z := (now - t) / us_per_day.

(** The key under which the crop of a season is looked up in the table:
    its lower-cased [crop_type], "default" when the field is absent. *)
Inductive crop_key (season : document) : string → Prop :=
| crop_absent : season !! "crop_type" = None → crop_key season "default"
| crop_named s :
    season !! "crop_type" = Some (VStr s) → crop_key season (lower s).

(** One of the four phases. *)
Definition is_phase (v : value) : Prop := ∃ p, v = VStr p ∧ p ∈ PHASES.

(** A number that is at least [n]. *)
Definition at_least (v : value) (n : Z) : Prop :=
  match v with
  | VInt h => n ≤ h
  | VBool b => n ≤ Z.b2z b
  | VFloat x =>
      match x with
      | S754_nan => False
      | S754_infinity negative => negative = false
      | _ =>
          match binary64_value x with
          | Some q => (inject_Z n <= q)%Q
          | None => False
          end
      end
  | _ => False
  end.

(** A task of priority "critical". *)
Definition critical (task : document) : Prop :=
  task !! "priority" = Some (VStr "critical").

(** The conditions for the harvest as the description of the check gives
    them: the season is stored and has a start date, at least 90% of the
    growth days of its crop have elapsed, its health score is absent or at
    least 50, and none of its pending tasks is critical. *)
Definition harvest_conditions (db : database) (season_id : string)
    (now : Z) : Prop :=
  ∃ (season : document) (start_date : value) (t : Z) (crop : string)
    (tasks : list document),
    stored db season_id season ∧
    season !! "start_date" = Some start_date ∧
    start_instant start_date t ∧
    crop_key season crop ∧
    9 * growth_days (default default_duration (CROP_DURATIONS !! crop))
      ≤ 10 * elapsed_days now t ∧
    (∀ health, season !! "health_score" = Some health →
               at_least health 50) ∧
    get_pending_tasks db season_id = Ok tasks ∧
    (∀ task, task ∈ tasks → ¬ critical task).

(** A health score that the test [health < n] lets pass: a number that
    is at least [n], or NaN, which is below no number. *)
Definition not_below (v : value) (n : Z) : Prop :=
  at_least v n ∨ v = VFloat S754_nan.

(** The conditions that the code checks: those of [harvest_conditions],
    with a health score that is absent or not below 50. *)
Definition harvest_guard (db : database) (season_id : string)
    (now : Z) : Prop :=
  ∃ (season : document) (start_date : value) (t : Z) (crop : string)
    (tasks : list document),
    stored db season_id season ∧
    season !! "start_date" = Some start_date ∧
    start_instant start_date t ∧
    crop_key season crop ∧
    9 * growth_days (default default_duration (CROP_DURATIONS !! crop))
      ≤ 10 * elapsed_days now t ∧
    (∀ health, season !! "health_score" = Some health →
               not_below health 50) ∧
    get_pending_tasks db season_id = Ok tasks ∧
    (∀ task, task ∈ tasks → ¬ critical task).

(** [next] comes right after [cur] in the lifecycle order of [PHASES]. *)
Definition follows (cur next : string) : Prop :=
  ∃ i : nat, PHASES !! i = Some cur ∧ PHASES !! S i = Some next.

(** The condition under which [auto_transition_phases] moves a season
    whose phase is [current] to [next]; [t_check] is the clock reading of
    the readiness check. *)
Definition transition_guard (db : database) (season_id : string)
    (t_check : Z) (current : value) (next : string) : Prop :=
  (current = VStr "pre_sowing" ∧ next = "growth" ∧
   ∃ season, stored db season_id season ∧
             is_Some (season !! "start_date")) ∨
  (current = VStr "growth" ∧ next = "harvest" ∧
   ∃ r, can_transition_to_harvest db season_id t_check = Ok r ∧
        ready r = true) ∨
  (current = VStr "harvest" ∧ next = "completed" ∧
   ∃ season, stored db season_id season ∧
             is_Some (season !! "actual_harvest_date")).

(** Every stored [current_phase] is one of the four phases. *)
Definition phases_valid (db : database) : Prop :=
  ∀ o (season : document) v,
    seasons_collection db !! o = Some season →
    season !! "current_phase" = Some v →
    is_phase v.

(** One call of a writing operation of the phase manager that returns. *)
Inductive step : database → database → Prop :=
| step_update_phase db season_id new_phase now ok db' :
    update_phase db season_id new_phase now = Ok (ok, db') →
    step db db'
| step_auto_transition db season_id t_phase t_check t_write r db' :
    auto_transition_phases db season_id t_phase t_check t_write
      = Ok (r, db') →
    step db db'.

(** The text contains at least one of the keywords. *)
Definition mentions (text : string) (keywords : list string) : Prop :=
  ∃ k, k ∈ keywords ∧ contains text k = true.

(** The yield change, the timeline change and the confidence of a
    dictionary of impact metrics. *)
Definition estimates (metrics : document)
  : option value * option value * option value :=
  (metrics !! "estimated_yield_change_percent",
   metrics !! "estimated_timeline_change_days",
   metrics !! "confidence").

(** The metrics dictionary with a yield change of [y] percent and a
    timeline change of [t] days. *)
Definition low_confidence (y t : Z)
  : option value * option value * option value :=
  (Some (VInt y), Some (VInt t), Some (VStr "low")).

End WithExternals.
End Vocabulary.

(** ** Fixtures of the examples *)

Module Fixtures.

Import PhaseManager.

Definition day : Z := 86400000000.

(** A stand-in for the externals: one ISO date, one JSON text, and a task
    service with a single pending task of normal priority. *)
Definition externals : Externals := {|
  fromisoformat s :=
    if bool_decide (s = "1970-01-11") then Ok (Naive (10 * day))
    else Raise ValueError;
  json_loads s :=
    if bool_decide (s = "{}") then Ok (VDict ∅) else Raise ValueError;
  get_pending_tasks _ _ := Ok [ {[ "priority" := VStr "normal" ]} ]
|}.

Definition season_id : string := "507f1f77bcf86cd799439011".

(** The binary form of [season_id]. *)
Definition season_oid : oid :=
  Eval vm_compute in
    match ObjectId season_id with Ok o => o | Raise _ => "" end.

(** A database that holds exactly one season. *)
Definition single (season : document) : database :=
  {[ "crop_seasons" := {[ season_oid := season ]} ]}.

(** Rice sown at the epoch, in good health. *)
Definition rice : document :=
  {[ "start_date" := VDatetime (Naive 0); "crop_type" := VStr "Rice";
     "health_score" := VInt 80 ]}.

(** The same season with a health score that is not a number. *)
Definition rice_nan : document :=
  <[ "health_score" := VFloat S754_nan ]> rice.

(** The same season, put by hand into the harvest phase at the epoch. *)
Definition harvested_rice : document :=
  set_fields (phase_update "harvest" 0) rice.

(** An id that is well formed and matches nothing in [single _]. *)
Definition other_id : string := "507f191e810c19729de860ea".

Definition other_oid : oid :=
  Eval vm_compute in
    match ObjectId other_id with Ok o => o | Raise _ => "" end.

End Fixtures.

(** ** Reports of the phase manager

    [get_phase_summary] and [get_phase_recommendations], the two reading
    operations of [PhaseManager] that build on the ones above. *)

Class Formats := {
  (* datetime.isoformat() *)
  isoformat : datetime → string;
  (* str(v) for a float, a datetime, an ObjectId, a list or a dict *)
  repr_other : value → string
}.

Module PhaseReports.
Section WithExternals.
Context `{Externals} `{Formats}.

Import PhaseManager.

(** [start_date = season["start_date"]], parsed when it is a [str]
    (lines 218-220); any other value fails at the subtraction. *)
Definition start_datetime_of (start_date : value) : result datetime :=
  match start_date with
  | VStr s => fromisoformat s
  | VDatetime t => Ok t
  | _ => Raise TypeError
  end.

(** The summary dictionary; a key that the code adds under a condition is
    an optional field. *)
Record phase_summary := {
  summary_season_id : string;
  summary_current_phase : value;
  summary_crop_type : value;
  summary_days_elapsed : option Z;
  summary_expected_harvest_in_days : option Z;
  summary_start_date : option string;
  summary_expected_harvest_date : option value;
  summary_harvest_readiness : option readiness
}.

Inductive summary_reply :=
| SummaryError                  (* {"error": "Season not found"} *)
| Summary (s : phase_summary).

(** The three clock readings are those of [get_current_phase], of line 222
    and of [can_transition_to_harvest], in this order. *)
Definition get_phase_summary (db : database) (season_id : string)
    (t_phase t_now t_check : Z) : result summary_reply :=
  o ← ObjectId season_id;
  match truthy (find_one (seasons_collection db) o) with
  | None => Ok SummaryError
  | Some season =>
      current_phase ← get_current_phase db season_id t_phase;
      (* Add phase-specific info *)
      dates ←
        match season !! "start_date" with
        | Some start_date =>
            start_date ← start_datetime_of start_date;
            days_elapsed ← days_since t_now start_date;
            crop_type ← crop_type_of season;
            let duration_info := duration_for crop_type in
            Ok (Some (days_elapsed,
                      Z.max 0 (growth_days duration_info - days_elapsed),
                      isoformat start_date))
        | None => Ok None
        end;
      (* Add readiness for next phase *)
      harvest_readiness ←
        (if eq_str current_phase "growth" then
           readiness ← can_transition_to_harvest db season_id t_check;
           Ok (Some readiness)
         else Ok None);
      Ok (Summary {|
        summary_season_id := season_id;
        summary_current_phase := current_phase;
        summary_crop_type := default (VStr "unknown") (season !! "crop_type");
        summary_days_elapsed := (λ d, d.1.1) <$> dates;
        summary_expected_harvest_in_days := (λ d, d.1.2) <$> dates;
        summary_start_date := (λ d, d.2) <$> dates;
        (* Add expected harvest date *)
        summary_expected_harvest_date := season !! "expected_harvest_date";
        summary_harvest_readiness := harvest_readiness
      |})
  end.

Definition pre_sowing_advice : list string :=
  [ "Choose the right crop for your soil and climate";
    "Check weather forecasts for the next 6 months";
    "Compare market prices for different crops";
    "Prepare your field (plowing, leveling)";
    "Source quality seeds from reliable vendors" ].

Definition early_growth_advice : list string :=
  [ "Monitor germination and early growth";
    "Ensure adequate watering";
    "Watch for early pests and diseases";
    "Apply first fertilization as scheduled" ].

Definition mid_growth_advice : list string :=
  [ "Monitor plant health daily";
    "Check for nutrient deficiencies";
    "Control weeds regularly";
    "Adjust watering based on weather" ].

Definition late_growth_advice : list string :=
  [ "Watch for harvest readiness signs";
    "Prepare for harvest (equipment, labor)";
    "Check market prices";
    "Plan post-harvest storage" ].

Definition harvest_advice : list string :=
  [ "Harvest at optimal time (early morning usually best)";
    "Handle crops carefully to avoid damage";
    "Dry and store properly";
    "Compare prices at different markets";
    "Sell when prices are favorable" ].

Definition completed_advice : list string :=
  [ "Analyze what went well and what could improve";
    "Prepare soil for next crop (add organic matter)";
    "Consider crop rotation";
    "Plan next season based on this season's learnings" ].

(** The two clock readings are those of [get_current_phase] and of
    line 266. *)
Definition get_phase_recommendations (db : database) (season_id : string)
    (t_phase t_now : Z) : result (list string) :=
  current_phase ← get_current_phase db season_id t_phase;
  o ← ObjectId season_id;
  let season := find_one (seasons_collection db) o in
  let recommendations : list string := [] in
  if eq_str current_phase "pre_sowing" then
    Ok (recommendations ++ pre_sowing_advice)
  else if eq_str current_phase "growth" then
    match truthy season with
    | Some season =>
        match season !! "start_date" with
        | Some start_date =>
            start_date ← start_datetime_of start_date;
            days_elapsed ← days_since t_now start_date;
            if days_elapsed <? 20 then
              Ok (recommendations ++ early_growth_advice)
            else if days_elapsed <? 60 then
              Ok (recommendations ++ mid_growth_advice)
            else Ok (recommendations ++ late_growth_advice)
        | None => Ok recommendations
        end
    | None => Ok recommendations
    end
  else if eq_str current_phase "harvest" then
    Ok (recommendations ++ harvest_advice)
  else if eq_str current_phase "completed" then
    Ok (recommendations ++ completed_advice)
  else Ok recommendations.

End WithExternals.
End PhaseReports.

(** ** The feedback pipeline

    [generate_adaptation_prompt] and the module function
    [process_task_feedback], which subscript the analysis dictionary and
    so can also raise [KeyError]. *)

Module FeedbackPipeline.

(** The result of a call that may also raise [KeyError]. *)
Inductive outcome (A : Type) :=
| Returns (a : A)
| Raises (e : exn)
| RaisesKeyError (key : string).
Arguments Returns {A} a.
Arguments Raises {A} e.
Arguments RaisesKeyError {A} key.

Definition outcome_bind {A B} (m : outcome A) (k : A → outcome B)
  : outcome B :=
  match m with
  | Returns a => k a
  | Raises e => Raises e
  | RaisesKeyError key => RaisesKeyError key
  end.

Definition of_result {A} (m : result A) : outcome A :=
  match m with
  | Ok a => Returns a
  | Raise e => Raises e
  end.

(** The truth value of a Python value. *)
Definition truth (v : value) : bool :=
  match v with
  | VNone => false
  | VBool b => b
  | VInt n => negb (n =? 0)
  | VFloat x => match x with S754_zero _ => false | _ => true end
  | VStr s => negb (bool_decide (s = ""))
  | VList l => match l with [] => false | _ :: _ => true end
  | VDict d => negb (bool_decide (dom d = ∅))
  | VDatetime _ | VObjectId _ => true
  end.

(** [v[key]] for a [str] key: the entry of a [dict], [KeyError] when it
    is missing; no other value can be subscripted by a [str]. *)
Definition getitem (v : value) (key : string) : outcome value :=
  match v with
  | VDict d =>
      match d !! key with
      | Some x => Returns x
      | None => RaisesKeyError key
      end
  | _ => Raises TypeError
  end.

(** [v.get(key, fallback)]: only a [dict] has the method. *)
Definition get_or (v : value) (key : string) (fallback : value)
  : outcome value :=
  match v with
  | VDict d => Returns (default fallback (d !! key))
  | _ => Raises AttributeError
  end.

(** A [list] and a [dict] cannot be the key of a dictionary. *)
Definition hashable (v : value) : bool :=
  match v with
  | VList _ | VDict _ => false
  | _ => true
  end.

End FeedbackPipeline.

Import FeedbackPipeline.

#[global] Instance outcome_mbind : MBind outcome :=
  λ A B k m, FeedbackPipeline.outcome_bind m k.

Module FeedbackReports.
Section WithExternals.
Context `{Externals} `{Formats}.

Import FeedbackProcessor.

(** [calculate_impact_metrics] as [process_task_feedback] calls it, with
    whatever values the analysis holds: a key that is not a [str] is in
    no table, a key that cannot be hashed raises [TypeError]. *)
Definition calculate_impact_metrics_on_values
    (deviation_type severity : value) (crop_type : string)
  : result document :=
  if negb (hashable deviation_type) then Raise TypeError
  else
    let row : gmap string impact :=
      match deviation_type with
      | VStr s => default ∅ (impact_table !! s)
      | _ => ∅
      end in
    if negb (hashable severity) then Raise TypeError
    else
      let impact :=
        match severity with
        | VStr s => default {| yield := 0; timeline := 0 |} (row !! s)
        | _ => {| yield := 0; timeline := 0 |}
        end in
      Ok (list_to_map [
        ("estimated_yield_change_percent", VInt (yield impact));
        ("estimated_timeline_change_days", VInt (timeline impact));
        ("confidence", VStr "low") ]).

(** [reply] is the reply of the language model, as in [analyze_feedback]. *)
Definition process_task_feedback (reply : result string)
    (planned_action farmer_response task_description crop_type : string)
  : outcome (value * document) :=
  let analysis :=
    analyze_feedback reply planned_action farmer_response task_description in
  let impact_metrics : document := ∅ in
  is_deviation ← getitem analysis "is_deviation";
  if truth is_deviation then
    deviation_type ← get_or analysis "deviation_type" (VStr "unknown");
    severity ← getitem analysis "severity";
    impact_metrics ←
      of_result (calculate_impact_metrics_on_values deviation_type severity
                                                    crop_type);
    Returns (analysis, impact_metrics)
  else Returns (analysis, impact_metrics).

(** A value inside an f-string. *)
Definition fstr (v : value) : string :=
  match v with
  | VStr s => s
  | VNone => "None"
  | VBool true => "True"
  | VBool false => "False"
  | VInt n => NilZero.string_of_int (Z.to_int n)
  | _ => repr_other v
  end.

(** The line feed. *)
Definition nl : string := String "010"%char "".

Definition generate_adaptation_prompt (deviation_analysis : document)
    (current_plan crop_type : string) : outcome string :=
  let planned_action :=
    default (VStr "N/A") (deviation_analysis !! "planned_action") in
  actual_action ← getitem (VDict deviation_analysis) "actual_action";
  let deviation_type :=
    default (VStr "unknown") (deviation_analysis !! "deviation_type") in
  severity ← getitem (VDict deviation_analysis) "severity";
  impact_summary ← getitem (VDict deviation_analysis) "impact_summary";
  Returns (
    "DEVIATION DETECTED in " ++ crop_type ++ " crop plan:" ++ nl ++
    nl ++
    "PLANNED ACTION: " ++ fstr planned_action ++ nl ++
    "ACTUAL ACTION: " ++ fstr actual_action ++ nl ++
    "DEVIATION TYPE: " ++ fstr deviation_type ++ nl ++
    "SEVERITY: " ++ fstr severity ++ nl ++
    "IMPACT: " ++ fstr impact_summary ++ nl ++
    nl ++
    "CURRENT PLAN:" ++ nl ++
    current_plan ++ nl ++
    nl ++
    "Please analyze this deviation and:" ++ nl ++
    "1. Assess the impact on crop yield and timeline" ++ nl ++
    "2. Recommend adaptations to the plan" ++ nl ++
    "3. Create any new tasks needed to compensate" ++ nl ++
    "4. Provide guidance to the farmer in supportive language" ++ nl ++
    nl ++
    "Respond with your analysis and recommendations.")%string.

End WithExternals.
End FeedbackReports.

(** ** Vocabulary of the further properties *)

Module Ordering.

Import PhaseManager.

(** [p'] is [p] or a later phase of the lifecycle. *)
Definition not_before (p p' : string) : Prop :=
  ∃ i j : nat, PHASES !! i = Some p ∧ PHASES !! j = Some p' ∧ (i ≤ j)%nat.

End Ordering.

(** ** Fixtures of the further examples *)

Module MoreFixtures.

Import PhaseManager Fixtures.

(** A stand-in for the formatting functions. *)
Definition formats : Formats := {|
  isoformat t :=
    match t with
    | Naive 0 => "1970-01-01T00:00:00"
    | _ => "1970-01-11T00:00:00"
    end;
  repr_other _ := "..."
|}.

(** Rice to be sown on the tenth day after the epoch; the date is stored
    as an ISO string. *)
Definition planned_rice : document :=
  {[ "start_date" := VStr "1970-01-11"; "crop_type" := VStr "rice" ]}.

(** Moong dal sown at the epoch; its growth period is 60 days. *)
Definition moong_dal : document :=
  {[ "start_date" := VDatetime (Naive 0);
     "crop_type" := VStr "moong_dal" ]}.

(** A season put by hand into the growth phase, without a start date. *)
Definition undated : document :=
  {[ "current_phase" := VStr "growth" ]}.

(** Rice moved to the harvest by the automatic transition of day 108. *)
Definition auto_harvested_rice : document :=
  set_fields (phase_update "harvest" (108 * day)) rice.

(** An analysis in which the validation filled in every required key. *)
Definition bare_analysis : gmap string value :=
  {[ "completed_as_planned" := VNone; "actual_action" := VNone;
     "is_deviation" := VNone; "severity" := VNone ]}.

End MoreFixtures.

(** * Properties *)

Import PhaseManager FeedbackProcessor Vocabulary.

(** Unfold one step of the error monad. *)
Ltac run := cbn [mbind mret result_bind result_ret Py.bind].

Section PhaseProperties.
Context `{Externals}.

Lemma truthy_document (season : document) :
  truthy (Some season) = Some season.
Proof. done. Qed.

Lemma truthy_Some (season : option document) d :
  truthy season = Some d → season = Some d.
Proof.
  by destruct season.
Qed.

Lemma default_duration_entry :
  CROP_DURATIONS !! "default" = Some default_duration.
Proof. reflexivity. Qed.

Lemma start_instant_days now start_date t :
  start_instant start_date t →
  days_elapsed_of now start_date = Ok (elapsed_days now t).
Proof.
  intros [t'|s t' Hs]; unfold days_elapsed_of; run; [done|].
  rewrite Hs. done.
Qed.

Lemma crop_key_type season crop :
  crop_key season crop → crop_type_of season = Ok crop.
Proof. intros [Hc|s Hc]; unfold crop_type_of; rewrite Hc; done. Qed.

(** Every entry the lookup can produce has positive lengths. *)
Lemma duration_for_positive crop :
  0 < growth_days (duration_for crop) ∧
  0 < harvest_window (duration_for crop).
Proof.
  unfold duration_for.
  destruct (CROP_DURATIONS !! crop) as [info|] eqn:Hlk; simpl; [|lia].
  unfold CROP_DURATIONS in Hlk. apply elem_of_list_to_map_2 in Hlk.
  rewrite !elem_of_cons, elem_of_nil in Hlk.
  destruct_or!; try done; simplify_eq; simpl; lia.
Qed.

(** C1. A season document with a [start_date] and no stored
    [current_phase] gets its phase from the days elapsed since the start
    and the CROP_DURATIONS entry of its crop (the "default" entry for a
    crop that is not in the table): pre_sowing before the start, growth
    for the first [growth_days] days, harvest for the next
    [harvest_window] days, completed afterwards. *)
Theorem get_current_phase_by_dates
    (db : database) (season_id : string) (season : document)
    (now t : Z) (start_date : value) (crop : string) :
  stored db season_id season →
  season !! "current_phase" = None →
  season !! "start_date" = Some start_date →
  start_instant start_date t →
  crop_key season crop →
  let days := elapsed_days now t in
  let info := default default_duration (CROP_DURATIONS !! crop) in
  let g := growth_days info in
  let w := harvest_window info in
  (CROP_DURATIONS !! crop = None → info = default_duration) ∧
  CROP_DURATIONS !! "default" =
    Some {| growth_days := 90; harvest_window := 7 |} ∧
  (days < 0 →
     get_current_phase db season_id now = Ok (VStr "pre_sowing")) ∧
  (0 ≤ days < g →
     get_current_phase db season_id now = Ok (VStr "growth")) ∧
  (g ≤ days < g + w →
     get_current_phase db season_id now = Ok (VStr "harvest")) ∧
  (¬ (days < 0) → ¬ (0 ≤ days < g) → ¬ (g ≤ days < g + w) →
     get_current_phase db season_id now = Ok (VStr "completed")) ∧
  (g + w ≤ days →
     get_current_phase db season_id now = Ok (VStr "completed")).
Proof.
  intros (o & Ho & Hfind) Hphase Hstart Ht Hcrop days info g w.
  assert (0 < g ∧ 0 < w) as [Hg Hw] by apply (duration_for_positive crop).
  assert (get_current_phase db season_id now =
          if days <? 0 then Ok (VStr "pre_sowing")
          else if days <? g then Ok (VStr "growth")
          else if days <? g + w then Ok (VStr "harvest")
          else Ok (VStr "completed")) as ->.
  { unfold get_current_phase. rewrite Ho. run.
    unfold find_one. rewrite Hfind.
    rewrite truthy_document, Hphase, Hstart.
    rewrite (start_instant_days now _ _ Ht). run.
    rewrite (crop_key_type _ _ Hcrop). run. done. }
  split; [intros Hnone; unfold info; by rewrite Hnone|]. split; [done|].
  clearbody days g w.
  destruct (Z.ltb_spec days 0), (Z.ltb_spec days g),
           (Z.ltb_spec days (g + w));
    repeat split; intros; first [done | lia].
Qed.

Lemma current_phase_stored db season_id (season : document) phase now :
  stored db season_id season →
  season !! "current_phase" = Some phase →
  get_current_phase db season_id now = Ok phase.
Proof.
  intros (o & Ho & Hfind) Hphase.
  unfold get_current_phase. rewrite Ho. run.
  unfold find_one. rewrite Hfind.
  by rewrite truthy_document, Hphase.
Qed.

(** C3. A stored [current_phase] wins over the dates: the phase of a
    season document that has the field is the stored value, whatever the
    clock, the [start_date] and the [crop_type] are. *)
Theorem get_current_phase_manual_override
    (db : database) (season_id : string) (season : document)
    (phase : value) (now : Z) :
  stored db season_id season →
  season !! "current_phase" = Some phase →
  get_current_phase db season_id now = Ok phase.
Proof. apply current_phase_stored. Qed.

(** C9, as amended. A season id that [ObjectId] accepts and that matches
    no document has the phase pre_sowing, and so has every season document
    with neither a [current_phase] nor a [start_date]; no exception is
    raised in either case. A season id that [ObjectId] rejects makes the
    call raise the exception of [ObjectId]. *)
Theorem get_current_phase_missing
    (db : database) (season_id : string) (now : Z) :
  (∀ o, ObjectId season_id = Ok o →
        seasons_collection db !! o = None →
        get_current_phase db season_id now = Ok (VStr "pre_sowing")) ∧
  (∀ season, stored db season_id season →
             season !! "current_phase" = None →
             season !! "start_date" = None →
             get_current_phase db season_id now = Ok (VStr "pre_sowing")) ∧
  (∀ e, ObjectId season_id = Raise e →
        get_current_phase db season_id now = Raise e).
Proof.
  repeat split.
  - intros o Ho Hfind. unfold get_current_phase. rewrite Ho. run.
    unfold find_one. by rewrite Hfind.
  - intros season (o & Ho & Hfind) Hphase Hstart.
    unfold get_current_phase. rewrite Ho. run.
    unfold find_one. rewrite Hfind. simpl. by rewrite Hphase, Hstart.
  - intros e He. unfold get_current_phase. by rewrite He.
Qed.

(** *** Readiness for the harvest *)

Lemma days_elapsed_of_inv now start_date d :
  days_elapsed_of now start_date = Ok d →
  ∃ t, start_instant start_date t ∧ d = elapsed_days now t.
Proof.
  unfold days_elapsed_of.
  destruct start_date as [| | | |s|[t|t]| | |]; run; try done.
  - destruct (fromisoformat s) as [[t|t]|e] eqn:Hs; run; try done.
    intros [= <-]. exists t. split; [by constructor|done].
  - intros [= <-]. exists t. split; [constructor|done].
Qed.

Lemma crop_type_of_inv season crop :
  crop_type_of season = Ok crop → crop_key season crop.
Proof.
  unfold crop_type_of.
  destruct (season !! "crop_type") as [v|] eqn:Hc; simpl.
  - destruct v; try done. intros [= <-]. by constructor.
  - intros [= <-]. by constructor.
Qed.

(** For every entry of the table the binary64 product [min_days * 0.9] is
    exactly nine tenths of [min_days], so that the rational product of the
    embedding is the number the code compares with. *)
Lemma growth_threshold_exact crop info :
  CROP_DURATIONS !! crop = Some info →
  ∃ q, binary64_value
         (binary64_mul (binary64_of_int (growth_days info)) binary64_0_9)
       = Some q ∧
       (q == int_mul_float (growth_days info) 0.9)%Q.
Proof.
  intros Hlk. unfold CROP_DURATIONS in Hlk.
  apply elem_of_list_to_map_2 in Hlk.
  rewrite !elem_of_cons, elem_of_nil in Hlk.
  destruct_or!; try done; simplify_eq; simpl growth_days;
    (eexists; split; [vm_compute; reflexivity|reflexivity]).
Qed.

(** The test [days_elapsed < min_days * 0.9] in whole numbers. *)
Lemma too_young_iff (days min_days : Z) :
  int_lt_float days (int_mul_float min_days 0.9) = false ↔
  9 * min_days ≤ 10 * days.
Proof.
  unfold int_lt_float, int_mul_float.
  rewrite negb_false_iff, Qle_bool_iff.
  unfold Qle, Qmult, inject_Z; simpl. lia.
Qed.

Lemma lt_int_not_below v n :
  lt_int v n = Ok false ↔ not_below v n.
Proof.
  unfold not_below.
  destruct v as [|b|h|x| | | | |]; simpl;
    try (split; [done|by intros [[]|]]).
  - split; [intros [= Hb]; left|intros [Hb|]; [f_equal|done]];
      destruct b; simpl in *; lia.
  - split; [intros [= Hb]; left|intros [Hb|]; [f_equal|done]]; lia.
  - destruct x as [s|s| |s m e]; simpl.
    + rewrite <- Qle_bool_iff. split.
      * intros [= Hb]. left. by apply negb_false_iff.
      * intros [Hb|]; [|done]. f_equal. by apply negb_false_iff.
    + split; [intros [= ->]; by left|by intros [->|]].
    + split; [by right|done].
    + rewrite <- Qle_bool_iff. split.
      * intros [= Hb]. left. by apply negb_false_iff.
      * intros [Hb|]; [|done]. f_equal. by apply negb_false_iff.
Qed.

Lemma critical_tasks_nil (tasks : list document) :
  critical_tasks tasks = [] ↔ ∀ task, task ∈ tasks → ¬ critical task.
Proof.
  unfold critical_tasks, critical. induction tasks as [|x tasks IH]; simpl.
  - split; [|done]. intros _ task Hin. by apply elem_of_nil in Hin.
  - destruct (x !! "priority") as [v|] eqn:Hx; simpl.
    + destruct (eq_str v "critical") eqn:Hv.
      * split; [done|]. intros Hall. destruct (Hall x); [left|].
        destruct v; try done. simpl in Hv.
        by apply bool_decide_eq_true in Hv as ->.
      * rewrite IH. split.
        -- intros Hall task [->|Hin]%elem_of_cons; [|by apply Hall].
           rewrite Hx. intros [= ->]. by vm_compute in Hv.
        -- intros Hall task Hin. apply Hall. by right.
    + rewrite IH. split.
      * intros Hall task [->|Hin]%elem_of_cons; [|by apply Hall].
        by rewrite Hx.
      * intros Hall task Hin. apply Hall. by right.
Qed.

(** C6, as amended. [can_transition_to_harvest] reports ready exactly
    when the season document exists, has a start date, at least 90% of the
    growth days of its crop (the default entry for a crop outside the
    table) have elapsed, the health score is absent, at least 50 or NaN,
    and no pending task of the season is critical; a report that is not
    ready always carries at least one reason. *)
Theorem can_transition_to_harvest_ready
    (db : database) (season_id : string) (now : Z) :
  ((∃ r, can_transition_to_harvest db season_id now = Ok r ∧
         ready r = true) ↔
   harvest_guard db season_id now) ∧
  (∀ r, can_transition_to_harvest db season_id now = Ok r →
        ready r = false → reasons r ≠ []).
Proof.
  split; [split|].
  - intros (r & Hr & Hready). revert Hr. unfold can_transition_to_harvest.
    destruct (ObjectId season_id) as [o|] eqn:Ho; run; [|done].
    destruct (truthy _) as [season|] eqn:Hfind;
      [|by intros [= <-]].
    apply truthy_Some in Hfind. unfold find_one in Hfind.
    destruct (season !! "start_date") as [sd|] eqn:Hsd; run.
    + destruct (days_elapsed_of now sd) as [d|] eqn:Hd; run; [|done].
      destruct (crop_type_of season) as [crop|] eqn:Hcrop; run; [|done].
      destruct (int_lt_float _ _) eqn:Hyoung; run;
        (destruct (season !! "health_score") as [health|] eqn:Hh; run;
         [destruct (lt_int health 50) as [[]|] eqn:Hlow; run; try done|]);
        (destruct (get_pending_tasks db season_id) as [tasks|] eqn:Htasks;
         run; [|done]);
        (destruct (critical_tasks tasks) eqn:Hcrit; intros [= <-];
         try done).
      all: apply days_elapsed_of_inv in Hd as (t & Ht & ->);
        apply crop_type_of_inv in Hcrop; apply too_young_iff in Hyoung;
        pose proof (proj1 (critical_tasks_nil tasks) Hcrit) as Hnone;
        exists season, sd, t, crop, tasks;
        (repeat split; [by exists o|done..| |done|done]);
        intros health' Hh'; simplify_eq.
      by apply lt_int_not_below.
    + destruct (season !! "health_score") as [health|] eqn:Hh; run;
        [destruct (lt_int health 50) as [[]|] eqn:Hlow; run; try done|];
        (destruct (get_pending_tasks db season_id) as [tasks|] eqn:Htasks;
         run; [|done]);
        (destruct (critical_tasks tasks) eqn:Hcrit; intros [= <-];
         done).
  - intros (season & sd & t & crop & tasks & (o & Ho & Hfind) & Hsd & Ht
            & Hcrop & Hage & Hhealth & Htasks & Hcrit).
    unfold can_transition_to_harvest. rewrite Ho. run.
    unfold find_one. rewrite Hfind, truthy_document, Hsd.
    rewrite (start_instant_days now _ _ Ht). run.
    rewrite (crop_key_type _ _ Hcrop). run.
    apply too_young_iff in Hage. unfold duration_for. rewrite Hage. run.
    apply (proj2 (critical_tasks_nil tasks)) in Hcrit.
    destruct (season !! "health_score") as [health|] eqn:Hh; run.
    + specialize (Hhealth health eq_refl).
      apply lt_int_not_below in Hhealth as ->. run.
      rewrite Htasks. run. rewrite Hcrit. eauto.
    + rewrite Htasks. run. rewrite Hcrit. eauto.
  - intros r. unfold can_transition_to_harvest.
    destruct (ObjectId season_id) as [o|] eqn:Ho; run; [|done].
    destruct (truthy _) as [season|] eqn:Hfind;
      [|by intros [= <-]].
    intros Hr _ Hnil. revert Hr.
    destruct (season !! "start_date") as [sd|]; run;
      [destruct (days_elapsed_of now sd) as [d|]; run; [|done];
       destruct (crop_type_of season) as [crop|]; run; [|done];
       destruct (int_lt_float _ _); run|];
      (destruct (season !! "health_score") as [health|]; run;
       [destruct (lt_int health 50) as [[]|]; run; try done|]);
      (destruct (get_pending_tasks db season_id) as [tasks|]; run; [|done]);
      (destruct (critical_tasks tasks); intros [= <-]; done).
Qed.


Lemma same_scalar_eq v w : same_scalar v w = true → v = w.
Proof.
  destruct v, w; simpl; try done; repeat case_match; try done;
    intros ?%bool_decide_eq_true; by subst.
Qed.

Lemma seasons_collection_insert (db : database) (c : collection) :
  seasons_collection (<["crop_seasons" := c]> db) = c.
Proof. unfold seasons_collection. by rewrite lookup_insert_eq. Qed.

Lemma set_fields_current_phase p now (d : document) :
  set_fields (phase_update p now) d !! "current_phase" = Some (VStr p).
Proof. unfold set_fields. by apply lookup_union_Some_l. Qed.

Lemma set_fields_other p now (d : document) k :
  k ≠ "current_phase" → k ≠ "phase_updated_at" →
  set_fields (phase_update p now) d !! k = d !! k.
Proof.
  intros Hk1 Hk2. unfold set_fields. apply lookup_union_r. simpl.
  by rewrite !lookup_insert_ne, lookup_empty.
Qed.

(** What a call of [update_phase] that returns has done. *)
Lemma update_phase_inv db season_id p now (ok : bool) db' :
  update_phase db season_id p now = Ok (ok, db') →
  ((p ∉ PHASES) ∧ ok = false ∧ db' = db) ∨
  (p ∈ PHASES ∧ ∃ o, ObjectId season_id = Ok o ∧
     ((seasons_collection db !! o = None ∧ ok = false ∧ db' = db) ∨
      (∃ season, seasons_collection db !! o = Some season ∧
         ((ok = false ∧ db' = db ∧
           season !! "current_phase" = Some (VStr p)) ∨
          (ok = true ∧
           set_fields (phase_update p now) season ≠ season ∧
           db' = <["crop_seasons" :=
                    <[o := set_fields (phase_update p now) season]>
                      (seasons_collection db)]> db))))).
Proof.
  unfold update_phase. case_bool_decide as Hp; simpl.
  all: revgoals.
  { intros [= <- <-]. by left. }
  destruct (ObjectId season_id) as [o|e] eqn:Ho; run; [|done].
  unfold update_one. fold (seasons_collection db).
  destruct (seasons_collection db !! o) as [season|] eqn:Hfind.
  - destruct (forallb _ _) eqn:Hsame.
    + intros [= <- <-]. right. split; [done|]. exists o. split; [done|].
      right. exists season. split; [done|]. left. repeat split.
      simpl in Hsame. apply andb_true_iff in Hsame as [Hsame _].
      destruct (season !! "current_phase") as [v|]; [|done].
      by apply same_scalar_eq in Hsame as ->.
    + intros [= <- <-]. right. split; [done|]. exists o. split; [done|].
      right. exists season. split; [done|]. right. repeat split.
      intros Heq. simpl in Hsame.
      pose proof (set_fields_current_phase p now season) as Hcp.
      assert (set_fields (phase_update p now) season !! "phase_updated_at"
              = Some (VDatetime (bson_datetime now))) as Hat.
      { unfold set_fields. by apply lookup_union_Some_l. }
      rewrite Heq in Hcp, Hat. rewrite Hcp, Hat in Hsame. simpl in Hsame.
      rewrite !bool_decide_eq_true_2 in Hsame; done.
  - intros [= <- <-]. right. split; [done|]. exists o. split; [done|].
    by left.
Qed.

(** C10. A [new_phase] outside the four phases makes [update_phase] answer
    False and leave the database as it is; an answer True means that
    [new_phase] is one of the four phases and that the matched season
    document exists and was changed by the write. *)
Theorem update_phase_validates
    (db : database) (season_id new_phase : string) (now : Z) :
  (new_phase ∉ ["pre_sowing"; "growth"; "harvest"; "completed"] →
     update_phase db season_id new_phase now = Ok (false, db)) ∧
  (∀ db', update_phase db season_id new_phase now = Ok (true, db') →
     new_phase ∈ ["pre_sowing"; "growth"; "harvest"; "completed"] ∧
     ∃ season season',
       stored db season_id season ∧ stored db' season_id season' ∧
       season' ≠ season ∧
       season' !! "current_phase" = Some (VStr new_phase)).
Proof.
  split.
  - intros Hp. unfold update_phase. by rewrite bool_decide_eq_false_2.
  - intros db' Hup. apply update_phase_inv in Hup
      as [(_ & [=] & _)|(Hp & o & Ho & [(_ & [=] & _)|(season & Hfind & Hcase)])].
    split; [done|]. destruct Hcase as [([=] & _)|(_ & Hne & ->)].
    exists season, (set_fields (phase_update new_phase now) season).
    repeat split; [by exists o| |done|apply set_fields_current_phase].
    exists o. split; [done|].
    by rewrite seasons_collection_insert, lookup_insert_eq.
Qed.

(** *** Transitions *)

Lemma is_phase_literal p :
  p ∈ PHASES → is_phase (VStr p).
Proof. intros Hp. by exists p. Qed.

Hint Resolve is_phase_literal : core.

Lemma phases_elem p :
  p ∈ PHASES ↔
  p = "pre_sowing" ∨ p = "growth" ∨ p = "harvest" ∨ p = "completed".
Proof. unfold PHASES. rewrite !elem_of_cons, elem_of_nil. tauto. Qed.

(** Where the value of [get_current_phase] comes from. *)
Lemma get_current_phase_inv db season_id now v :
  get_current_phase db season_id now = Ok v →
  ∃ o, ObjectId season_id = Ok o ∧
    ((truthy (seasons_collection db !! o) = None ∧ v = VStr "pre_sowing") ∨
     (∃ season, seasons_collection db !! o = Some season ∧
        (season !! "current_phase" = Some v ∨
         (season !! "current_phase" = None ∧ is_phase v)))).
Proof.
  unfold get_current_phase.
  destruct (ObjectId season_id) as [o|] eqn:Ho; run; [|done].
  intros Hv. exists o. split; [done|]. revert Hv. unfold find_one.
  destruct (truthy _) as [season|] eqn:Hfind.
  - apply truthy_Some in Hfind. intros Hv. right. exists season.
    split; [done|]. revert Hv.
    destruct (season !! "current_phase") as [phase|];
      [intros [= <-]; by left|].
    intros Hv. right. split; [done|]. revert Hv.
    destruct (season !! "start_date") as [sd|];
      [|intros [= <-]; apply is_phase_literal, phases_elem; tauto].
    destruct (days_elapsed_of now sd) as [d|]; run; [|done].
    destruct (crop_type_of season) as [crop|]; run; [|done].
    repeat case_match; intros [= <-];
      apply is_phase_literal, phases_elem; tauto.
  - intros [= <-]. by left.
Qed.

Lemma update_phase_total db season_id p now o :
  ObjectId season_id = Ok o →
  ∃ ok db', update_phase db season_id p now = Ok (ok, db').
Proof.
  intros Ho. unfold update_phase. case_bool_decide; simpl; [|eauto].
  rewrite Ho. run. destruct (update_one _ _ _ _); eauto.
Qed.

Lemma update_phase_sets db season_id p now (season : document) ok db' :
  stored db season_id season →
  p ∈ PHASES →
  update_phase db season_id p now = Ok (ok, db') →
  ∃ season', stored db' season_id season' ∧
             season' !! "current_phase" = Some (VStr p).
Proof.
  intros (o & Ho & Hfind) Hp Hup. apply update_phase_inv in Hup
    as [(? & _)|(_ & o' & Ho' & Hcase)]; [done|].
  assert (o' = o) as -> by congruence.
  destruct Hcase as [(? & _)|(season' & Hfind' & Hcase)]; [congruence|].
  assert (season' = season) as -> by congruence.
  destruct Hcase as [(_ & -> & Hcp)|(_ & _ & ->)].
  - exists season. split; [by exists o|done].
  - exists (set_fields (phase_update p now) season). split.
    + exists o. split; [done|].
      by rewrite seasons_collection_insert, lookup_insert_eq.
    + apply set_fields_current_phase.
Qed.

Lemma update_phase_valid db season_id p now ok db' :
  phases_valid db →
  update_phase db season_id p now = Ok (ok, db') →
  phases_valid db'.
Proof.
  intros Hvalid Hup. apply update_phase_inv in Hup
    as [(_ & _ & ->)|(Hp & o & Ho & [(_ & _ & ->)|(season & Hfind & Hcase)])];
    [done..|].
  destruct Hcase as [(_ & -> & _)|(_ & _ & ->)]; [done|].
  intros o' season' v. rewrite seasons_collection_insert.
  destruct (decide (o' = o)) as [->|Hne].
  - rewrite lookup_insert_eq. intros [= <-].
    rewrite set_fields_current_phase. intros [= <-]. auto.
  - rewrite lookup_insert_ne by done. apply Hvalid.
Qed.

(** A call of [auto_transition_phases] writes through [update_phase], with
    one of the three later phases, or not at all. *)
Lemma auto_transition_phases_writes db season_id t_phase t_check t_write
    r db' :
  auto_transition_phases db season_id t_phase t_check t_write
    = Ok (r, db') →
  (r = None ∧ db' = db) ∨
  (∃ next ok, r = Some next ∧ next ∈ PHASES ∧
     update_phase db season_id next t_write = Ok (ok, db')).
Proof.
  unfold auto_transition_phases.
  destruct (get_current_phase db season_id t_phase) as [current|]; run;
    [|done].
  assert (∀ next, next ∈ PHASES →
    (update_phase db season_id next t_write
       ≫= λ '(_, db''), Ok (Some next, db'')) = Ok (r, db') →
    (r = None ∧ db' = db) ∨
    (∃ next ok, r = Some next ∧ next ∈ PHASES ∧
       update_phase db season_id next t_write = Ok (ok, db'))) as Hwrite.
  { intros next Hnext.
    destruct (update_phase db season_id next t_write) as [[ok db'']|]
      eqn:Hup; run; [|done].
    intros [= <- <-]. right. by exists next, ok. }
  repeat case_match; run; try (intros [= <- <-]; by left).
  - destruct (ObjectId season_id) as [o|]; run; [|done].
    destruct (truthy _) as [season|]; [|intros [= <- <-]; by left].
    destruct (has_key _ _); [|intros [= <- <-]; by left].
    apply Hwrite, phases_elem. tauto.
  - destruct (can_transition_to_harvest _ _ _) as [rd|]; run; [|done].
    destruct (ready rd); [|intros [= <- <-]; by left].
    apply Hwrite, phases_elem. tauto.
  - destruct (ObjectId season_id) as [o|]; run; [|done].
    destruct (truthy _) as [season|]; [|intros [= <- <-]; by left].
    destruct (has_key _ _); [|intros [= <- <-]; by left].
    apply Hwrite, phases_elem. tauto.
Qed.

Lemma step_valid db db' :
  phases_valid db → step db db' → phases_valid db'.
Proof.
  intros Hvalid Hstep.
  destruct Hstep as [db season_id p now ok db' Hup
                    |db season_id t1 t2 t3 r db' Hauto].
  - by eapply update_phase_valid.
  - apply auto_transition_phases_writes in Hauto
      as [(_ & ->)|(next & ok & _ & _ & Hup)]; [done|].
    by eapply update_phase_valid.
Qed.

Lemma reachable_valid db0 db :
  phases_valid db0 → rtc step db0 db → phases_valid db.
Proof. intros Hvalid Hsteps. induction Hsteps; eauto using step_valid. Qed.

(** C2. Starting from a database in which every stored [current_phase] is
    one of the four phases, and after any number of calls of
    [update_phase] and [auto_transition_phases], every value that
    [get_current_phase] returns, for any season id and at any time, is
    one of pre_sowing, growth, harvest, completed. *)
Theorem get_current_phase_in_phases
    (db0 db : database) (season_id : string) (now : Z) (v : value) :
  phases_valid db0 →
  rtc step db0 db →
  get_current_phase db season_id now = Ok v →
  ∃ p, v = VStr p ∧
       p ∈ ["pre_sowing"; "growth"; "harvest"; "completed"].
Proof.
  intros Hvalid Hsteps Hv.
  pose proof (reachable_valid _ _ Hvalid Hsteps) as Hdb.
  apply get_current_phase_inv in Hv
    as (o & _ & [(_ & ->)|(season & Hfind & [Hcp|(_ & Hp)])]).
  - exists "pre_sowing". split; [done|]. apply phases_elem. tauto.
  - exact (Hdb _ _ _ Hfind Hcp).
  - exact Hp.
Qed.

Lemma has_key_Some k (season : document) :
  has_key k season = true ↔ is_Some (season !! k).
Proof. unfold has_key. apply bool_decide_eq_true. Qed.

Lemma eq_str_true v s : eq_str v s = true ↔ v = VStr s.
Proof.
  destruct v; simpl; try (split; done).
  rewrite bool_decide_eq_true. split; [by intros ->|by intros [= ->]].
Qed.

Lemma stored_truthy db season_id o (season : document) k :
  ObjectId season_id = Ok o →
  (truthy (find_one (seasons_collection db) o) = Some season ∧
   has_key k season = true) ↔
  (seasons_collection db !! o = Some season ∧ is_Some (season !! k)).
Proof.
  intros Ho. rewrite has_key_Some. split.
  - intros [Hfind Hk]. by apply truthy_Some in Hfind.
  - intros [Hfind [v Hk]]. unfold find_one. rewrite Hfind.
    split; [apply truthy_document|eauto].
Qed.

Lemma guard_follows db season_id t_check current next :
  transition_guard db season_id t_check current next →
  ∃ cur, current = VStr cur ∧ follows cur next.
Proof.
  intros [(-> & -> & _)|[(-> & -> & _)|(-> & -> & _)]];
    eexists; (split; [done|]).
  - by exists 0%nat.
  - by exists 1%nat.
  - by exists 2%nat.
Qed.

(** The season test of the first and the third branch. *)
Lemma season_has_key db season_id o k :
  ObjectId season_id = Ok o →
  (∃ season, stored db season_id season ∧ is_Some (season !! k)) ↔
  (∃ season, truthy (find_one (seasons_collection db) o) = Some season ∧
             has_key k season = true).
Proof.
  intros Ho. split.
  - intros (season & (o' & Ho' & Hfind) & Hk).
    assert (o' = o) as -> by congruence.
    exists season. by apply (stored_truthy _ _ _ _ _ Ho).
  - intros (season & Hs). apply (stored_truthy _ _ _ _ _ Ho) in Hs as [? ?].
    exists season. split; [by exists o|done].
Qed.

Lemma get_current_phase_id db season_id now v :
  get_current_phase db season_id now = Ok v →
  ∃ o, ObjectId season_id = Ok o.
Proof. intros (o & Ho & _)%get_current_phase_inv. eauto. Qed.

Lemma guard_current db season_id t_check current next :
  transition_guard db season_id t_check current next →
  (eq_str current "pre_sowing" = true ∧ next = "growth") ∨
  (eq_str current "growth" = true ∧ next = "harvest") ∨
  (eq_str current "harvest" = true ∧ next = "completed").
Proof. intros [(-> & -> & _)|[(-> & -> & _)|(-> & -> & _)]]; auto. Qed.

(** C7. A call of [auto_transition_phases] that returns a phase has moved
    the season exactly one step along pre_sowing, growth, harvest,
    completed: to growth only from pre_sowing and with a start date, to
    harvest only from growth and with a ready report of
    [can_transition_to_harvest], to completed only from harvest and with
    an actual harvest date. In every other case it returns None and
    leaves the database as it was. Conversely, when the condition of a
    move holds the move is made. *)
Theorem auto_transition_phases_one_step
    (db : database) (season_id : string) (t_phase t_check t_write : Z) :
  (∀ r db',
     auto_transition_phases db season_id t_phase t_check t_write
       = Ok (r, db') →
     ∃ current, get_current_phase db season_id t_phase = Ok current ∧
       match r with
       | Some next =>
           transition_guard db season_id t_check current next ∧
           (∃ cur, current = VStr cur ∧ follows cur next) ∧
           (∀ t, get_current_phase db' season_id t = Ok (VStr next))
       | None =>
           db' = db ∧
           ∀ next, ¬ transition_guard db season_id t_check current next
       end) ∧
  (∀ current next,
     get_current_phase db season_id t_phase = Ok current →
     transition_guard db season_id t_check current next →
     ∃ db', auto_transition_phases db season_id t_phase t_check t_write
              = Ok (Some next, db')).
Proof.
  assert (∀ next current r db',
    next ∈ PHASES →
    (∃ season, stored db season_id season) →
    transition_guard db season_id t_check current next →
    (update_phase db season_id next t_write
       ≫= λ '(_, db''), Ok (Some next, db'')) = Ok (r, db') →
    match r with
    | Some next =>
        transition_guard db season_id t_check current next ∧
        (∃ cur, current = VStr cur ∧ follows cur next) ∧
        (∀ t, get_current_phase db' season_id t = Ok (VStr next))
    | None =>
        db' = db ∧
        ∀ next, ¬ transition_guard db season_id t_check current next
    end) as Hmove.
  { intros next current r db' Hnext (season & Hstored) Hguard.
    destruct (update_phase db season_id next t_write) as [[ok db'']|]
      eqn:Hup; run; [|done].
    intros [= <- <-]. split; [done|]. split; [by eapply guard_follows|].
    intros t.
    destruct (update_phase_sets _ _ _ _ _ _ _ Hstored Hnext Hup)
      as (season' & Hstored' & Hcp).
    by eapply current_phase_stored. }
  split.
  - intros r db'. unfold auto_transition_phases.
    destruct (get_current_phase db season_id t_phase) as [current|]
      eqn:Hcur; run; [|done].
    intros Hauto. exists current. split; [done|]. revert Hauto.
    destruct (get_current_phase_id _ _ _ _ Hcur) as [o Ho].
    destruct (eq_str current "pre_sowing") eqn:Hpre;
      [|destruct (eq_str current "growth") eqn:Hgrowth;
        [|destruct (eq_str current "harvest") eqn:Hharvest]].
    + apply eq_str_true in Hpre as ->. rewrite Ho. run.
      pose proof (season_has_key db season_id o "start_date" Ho) as Hkey.
      destruct (truthy _) as [season|] eqn:Hfind;
        [destruct (has_key "start_date" season) eqn:Hk|].
      * assert (∃ s, stored db season_id s ∧ is_Some (s !! "start_date"))
          as Hs by (apply Hkey; eauto).
        apply Hmove; [apply phases_elem; tauto| |by left].
        destruct Hs as (s & ? & _); eauto.
      * intros [= <- <-]. split; [done|].
        intros next [(_ & _ & Hs)|[([=] & _)|([=] & _)]].
        apply Hkey in Hs as (s & [= <-] & Hs). congruence.
      * intros [= <- <-]. split; [done|].
        intros next [(_ & _ & Hs)|[([=] & _)|([=] & _)]].
        by apply Hkey in Hs as (s & [=] & _).
    + apply eq_str_true in Hgrowth as ->.
      destruct (can_transition_to_harvest db season_id t_check) as [rd|]
        eqn:Hrd; run; [|done].
      destruct (ready rd) eqn:Hready.
      * apply Hmove; [apply phases_elem; tauto| |right; left; eauto].
        apply get_current_phase_inv in Hcur
          as (o' & Ho' & [(_ & [=])|(season & Hfind & _)]).
        exists season, o'. done.
      * intros [= <- <-]. split; [done|].
        intros next [([=] & _)|[(_ & _ & rd' & Hrd' & Hready')|([=] & _)]].
        congruence.
    + apply eq_str_true in Hharvest as ->. rewrite Ho. run.
      pose proof (season_has_key db season_id o "actual_harvest_date" Ho)
        as Hkey.
      destruct (truthy _) as [season|] eqn:Hfind;
        [destruct (has_key "actual_harvest_date" season) eqn:Hk|].
      * assert (∃ s, stored db season_id s ∧
                     is_Some (s !! "actual_harvest_date"))
          as Hs by (apply Hkey; eauto).
        apply Hmove; [apply phases_elem; tauto| |by right; right].
        destruct Hs as (s & ? & _); eauto.
      * intros [= <- <-]. split; [done|].
        intros next [([=] & _)|[([=] & _)|(_ & _ & Hs)]].
        apply Hkey in Hs as (s & [= <-] & Hs). congruence.
      * intros [= <- <-]. split; [done|].
        intros next [([=] & _)|[([=] & _)|(_ & _ & Hs)]].
        by apply Hkey in Hs as (s & [=] & _).
    + intros [= <- <-]. split; [done|].
      intros next Hguard. apply guard_current in Hguard.
      destruct Hguard as [[? _]|[[? _]|[? _]]]; congruence.
  - intros current next Hcur Hguard. unfold auto_transition_phases.
    rewrite Hcur. run.
    destruct (get_current_phase_id _ _ _ _ Hcur) as [o Ho].
    assert (∀ p, ∃ db', (update_phase db season_id p t_write
              ≫= λ '(_, db''), Ok (Some p, db'')) = Ok (Some p, db'))
      as Hwrite.
    { intros p.
      destruct (update_phase_total db season_id p t_write o Ho)
        as (ok & db' & ->). run. eauto. }
    destruct Hguard as [(-> & -> & Hs)|[(-> & -> & rd & Hrd & Hready)
                                       |(-> & -> & Hs)]]; simpl.
    + rewrite Ho. run.
      destruct (proj1 (season_has_key db season_id o _ Ho) Hs)
        as (s & Hfind & Hk).
      rewrite Hfind, Hk. apply Hwrite.
    + rewrite Hrd. run. rewrite Hready. apply Hwrite.
    + rewrite Ho. run.
      destruct (proj1 (season_has_key db season_id o _ Ho) Hs)
        as (s & Hfind & Hk).
      rewrite Hfind, Hk. apply Hwrite.
Qed.

End PhaseProperties.

Section FeedbackProperties.
Context `{Externals}.

Lemma any_in_mentions keywords text :
  any_in keywords text = true ↔ mentions text keywords.
Proof.
  unfold any_in, mentions. rewrite existsb_exists.
  by setoid_rewrite list_elem_of_In.
Qed.

(** C4. When the request to the language model raises, or [json.loads]
    raises on its reply, [analyze_feedback] returns the keyword fallback:
    is_deviation false, severity none and the planned action as actual
    action exactly when the lower-cased response mentions a completion
    keyword and no deviation keyword; otherwise is_deviation true,
    severity moderate, deviation_type unknown and requires_agent_response
    true. *)
Theorem analyze_feedback_fallback
    (reply : result string)
    (planned_action farmer_response task_description : string) :
  ((∃ e, reply = Raise e) ∨
   (∃ content e, reply = Ok content ∧
                 json_loads (strip_code_fence content) = Raise e)) →
  let as_planned :=
    mentions (lower farmer_response)
      ["done"; "completed"; "did it"; "finished"; "applied"; "yes"] ∧
    ¬ mentions (lower farmer_response)
      ["instead"; "different"; "couldn't"; "forgot"; "didn't"; "other"] in
  ∃ d : document,
    analyze_feedback reply planned_action farmer_response task_description
      = VDict d ∧
    ((d !! "is_deviation" = Some (VBool false) ∧
      d !! "severity" = Some (VStr "none") ∧
      d !! "actual_action" = Some (VStr planned_action)) ↔ as_planned) ∧
    (¬ as_planned →
       d !! "is_deviation" = Some (VBool true) ∧
       d !! "severity" = Some (VStr "moderate") ∧
       d !! "deviation_type" = Some (VStr "unknown") ∧
       d !! "requires_agent_response" = Some (VBool true)).
Proof.
  intros Hraise as_planned.
  exists (_fallback_analysis planned_action farmer_response). split.
  { unfold analyze_feedback, parse_reply.
    destruct Hraise as [(e & ->)|(content & e & -> & Hjson)]; run; [done|].
    rewrite Hjson. done. }
  assert (as_planned ↔
          any_in completion_keywords (lower farmer_response)
          && negb (any_in deviation_keywords (lower farmer_response))
          = true) as Hcond.
  { unfold as_planned. rewrite andb_true_iff, negb_true_iff.
    rewrite <- not_true_iff_false, !any_in_mentions. done. }
  unfold _fallback_analysis.
  destruct (any_in completion_keywords _ && negb _) eqn:Hkw.
  - split; [|tauto]. split; [tauto|done].
  - assert (¬ as_planned) as Hnot by (rewrite Hcond; congruence).
    split; [|done]. split; [|tauto]. by intros ([=] & _).
Qed.

(** The required fields of a [dict] after the validation loop. *)
Lemma validate_dict fields (d : gmap string value) :
  ∃ d' : gmap string value,
    validate fields (VDict d) = Ok (VDict d') ∧
    ∀ k, d' !! k = if bool_decide (k ∈ fields)
                   then Some (default VNone (d !! k))
                   else d !! k.
Proof.
  revert d. induction fields as [|field fields IH]; intros d;
    cbn [validate].
  { exists d. split; [done|]. intros k.
    rewrite bool_decide_eq_false_2; [done|]. apply not_elem_of_nil. }
  cbn [py_in setitem]. run. case_bool_decide as Hpresent; run.
  - destruct (IH d) as (d' & -> & Hd'). exists d'. split; [done|].
    intros k. rewrite Hd'. destruct Hpresent as [v Hv].
    destruct (decide (k = field)) as [->|Hne].
    + rewrite (bool_decide_eq_true_2 (field ∈ field :: fields))
        by by left.
      case_bool_decide; by rewrite Hv.
    + case_bool_decide as Hin.
      * rewrite bool_decide_eq_true_2; [done|]. by right.
      * rewrite bool_decide_eq_false_2; [done|].
        intros [->|?]%elem_of_cons; done.
  - destruct (IH (<[field := VNone]> d)) as (d' & -> & Hd').
    exists d'. split; [done|].
    intros k. rewrite Hd'.
    assert (d !! field = None) as Hnone.
    { destruct (d !! field) eqn:?; [|done]. destruct Hpresent. eauto. }
    destruct (decide (k = field)) as [->|Hne].
    + rewrite (bool_decide_eq_true_2 (field ∈ field :: fields))
        by by left.
      rewrite lookup_insert_eq, Hnone. by case_bool_decide.
    + rewrite lookup_insert_ne by done. case_bool_decide as Hin.
      * rewrite bool_decide_eq_true_2; [done|]. by right.
      * rewrite bool_decide_eq_false_2; [done|].
        intros [->|?]%elem_of_cons; done.
Qed.

(** C8. When the reply of the language model, stripped of its code fence,
    is read by [json.loads] as an object, [analyze_feedback] returns a
    dictionary with the four required keys completed_as_planned,
    actual_action, is_deviation and severity: a key of the object keeps
    its value, a missing required key is None, and no other key is
    added. *)
Theorem analyze_feedback_required_fields
    (content : string) (d : gmap string value)
    (planned_action farmer_response task_description : string) :
  json_loads (strip_code_fence content) = Ok (VDict d) →
  ∃ d' : gmap string value,
    analyze_feedback (Ok content) planned_action farmer_response
                     task_description = VDict d' ∧
    (∀ field,
       field ∈ ["completed_as_planned"; "actual_action"; "is_deviation";
                "severity"] →
       is_Some (d' !! field) ∧
       (d !! field = None → d' !! field = Some VNone)) ∧
    (∀ k v, d !! k = Some v → d' !! k = Some v) ∧
    (∀ k, k ∉ ["completed_as_planned"; "actual_action"; "is_deviation";
               "severity"] → d' !! k = d !! k).
Proof.
  intros Hjson. destruct (validate_dict required_fields d) as (d' & Hv & Hd').
  exists d'. split.
  { unfold analyze_feedback, parse_reply. run. rewrite Hjson. run.
    by rewrite Hv. }
  fold required_fields. repeat split.
  - rewrite Hd', bool_decide_eq_true_2; done.
  - intros Hnone. by rewrite Hd', bool_decide_eq_true_2, Hnone.
  - intros k v Hk. rewrite Hd', Hk. by case_bool_decide.
  - intros k Hk. by rewrite Hd', bool_decide_eq_false_2.
Qed.

(** The table has no row for an unlisted deviation type and no entry for
    an unlisted severity. *)
Lemma impact_table_other deviation_type severity :
  ¬ (deviation_type ∈ ["fertilizer_change"; "delay"; "method_change";
                       "quantity_change"] ∧
     severity ∈ ["minor"; "moderate"; "major"]) →
  default ∅ (impact_table !! deviation_type) !! severity = None.
Proof.
  intros Hother. unfold impact_table.
  destruct (list_to_map _ !! deviation_type) as [row|] eqn:Hrow; simpl;
    [|apply lookup_empty].
  apply elem_of_list_to_map_2 in Hrow.
  rewrite !elem_of_cons, elem_of_nil in Hrow.
  destruct_or!; try done; simplify_eq;
    apply not_elem_of_list_to_map_1; simpl;
    rewrite !elem_of_cons, elem_of_nil; intros Hs; apply Hother;
    (split; [|rewrite !elem_of_cons; tauto]);
    rewrite !elem_of_cons; tauto.
Qed.

(** C5. [calculate_impact_metrics] reads one fixed table and never looks
    at the crop: the twelve listed pairs of deviation type and severity
    give the tabulated yield and timeline changes, any other pair gives
    0 and 0, and the confidence is always low. *)
Theorem calculate_impact_metrics_table (crop_type : string) :
  let impact deviation_type severity :=
    estimates (calculate_impact_metrics deviation_type severity crop_type) in
  impact "fertilizer_change" "minor" = low_confidence (-2) 0 ∧
  impact "fertilizer_change" "moderate" = low_confidence (-10) 3 ∧
  impact "fertilizer_change" "major" = low_confidence (-20) 7 ∧
  impact "delay" "minor" = low_confidence (-1) 1 ∧
  impact "delay" "moderate" = low_confidence (-5) 3 ∧
  impact "delay" "major" = low_confidence (-15) 7 ∧
  impact "method_change" "minor" = low_confidence (-3) 0 ∧
  impact "method_change" "moderate" = low_confidence (-8) 2 ∧
  impact "method_change" "major" = low_confidence (-12) 5 ∧
  impact "quantity_change" "minor" = low_confidence (-2) 0 ∧
  impact "quantity_change" "moderate" = low_confidence (-7) 1 ∧
  impact "quantity_change" "major" = low_confidence (-15) 3 ∧
  (∀ deviation_type severity,
     ¬ (deviation_type ∈ ["fertilizer_change"; "delay"; "method_change";
                          "quantity_change"] ∧
        severity ∈ ["minor"; "moderate"; "major"]) →
     impact deviation_type severity = low_confidence 0 0) ∧
  (∀ deviation_type severity,
     calculate_impact_metrics deviation_type severity crop_type
       !! "confidence" = Some (VStr "low")) ∧
  (∀ deviation_type severity other_crop,
     calculate_impact_metrics deviation_type severity other_crop =
     calculate_impact_metrics deviation_type severity crop_type).
Proof.
  intros impact. repeat split; try reflexivity.
  intros deviation_type severity Hother. unfold impact.
  unfold calculate_impact_metrics.
  by rewrite (impact_table_other _ _ Hother).
Qed.

End FeedbackProperties.

(** * Examples

    The properties above at the fixtures. *)

Import Fixtures.

(** Close an equation between closed terms by evaluating its left side. *)
Ltac by_evaluation :=
  match goal with |- ?x = ?y => exact (@eq_refl _ y <: x = y) end.

Lemma stored_single (season : document) :
  stored (single season) season_id season.
Proof.
  exists season_oid. split; [by_evaluation|].
  unfold seasons_collection, single.
  by rewrite lookup_singleton_eq; simpl; rewrite lookup_singleton_eq.
Qed.

Lemma seasons_single (season : document) :
  seasons_collection (single season) = {[ season_oid := season ]}.
Proof. unfold seasons_collection, single. by rewrite lookup_singleton_eq. Qed.

(** Rice on its 119th day is in the growth phase. *)
Lemma get_current_phase_by_dates_witness :
  get_current_phase (H := externals) (single rice) season_id (119 * day)
    = Ok (VStr "growth").
Proof.
  pose proof (get_current_phase_by_dates (H := externals)
                (single rice) season_id rice (119 * day) 0
                (VDatetime (Naive 0)) "rice"
                (stored_single rice) eq_refl eq_refl
                (instant_datetime 0) (crop_named rice "Rice" eq_refl))
    as (_ & _ & _ & Hgrowth & _).
  apply Hgrowth. split; by vm_compute.
Defined.

(** After a manual move to the harvest the phase read back is harvest. *)
Lemma get_current_phase_in_phases_witness :
  ∃ p, VStr "harvest" = VStr p ∧
       p ∈ ["pre_sowing"; "growth"; "harvest"; "completed"].
Proof.
  apply (get_current_phase_in_phases (H := externals)
           (single rice) (single harvested_rice) season_id 0).
  - intros o season v. rewrite seasons_single.
    intros [<- <-]%lookup_singleton_Some. by vm_compute.
  - apply rtc_once.
    apply (step_update_phase (single rice) season_id "harvest" 0 true).
    by_evaluation.
  - by_evaluation.
Defined.

(** The stored phase is returned although 300 days have elapsed. *)
Lemma get_current_phase_manual_override_witness :
  get_current_phase (H := externals) (single harvested_rice) season_id
                    (300 * day) = Ok (VStr "harvest").
Proof.
  apply (get_current_phase_manual_override (H := externals)
           (single harvested_rice) season_id harvested_rice).
  - apply stored_single.
  - by_evaluation.
Defined.

(** "I applied it yesterday morning" is classified as done as planned when
    the service is down. *)
Lemma analyze_feedback_fallback_witness :
  ∃ d : document,
    analyze_feedback (H := externals) (Raise ServiceError)
      "Apply 50kg urea fertilizer" "I applied it yesterday morning"
      "Fertilize rice crop" = VDict d ∧
    d !! "is_deviation" = Some (VBool false) ∧
    d !! "severity" = Some (VStr "none") ∧
    d !! "actual_action" = Some (VStr "Apply 50kg urea fertilizer").
Proof.
  destruct (analyze_feedback_fallback (H := externals) (Raise ServiceError)
              "Apply 50kg urea fertilizer" "I applied it yesterday morning"
              "Fertilize rice crop"
              (or_introl (ex_intro _ ServiceError eq_refl)))
    as (d & Hd & Hplanned & _).
  exists d. split; [exact Hd|]. apply Hplanned. split.
  - exists "applied". split; [|by_evaluation].
    rewrite !elem_of_cons. tauto.
  - intros Hm%any_in_mentions. by vm_compute in Hm.
Defined.

(** An unknown deviation of moderate severity has no estimated impact. *)
Lemma calculate_impact_metrics_table_witness :
  estimates (calculate_impact_metrics "unknown" "moderate" "rice")
    = low_confidence 0 0.
Proof.
  pose proof (calculate_impact_metrics_table "rice")
    as (_ & _ & _ & _ & _ & _ & _ & _ & _ & _ & _ & _ & Hother & _).
  apply Hother. intros [Hd _].
  rewrite !elem_of_cons, elem_of_nil in Hd. by destruct_or!.
Defined.

(** Rice on its 108th day, in good health and without critical tasks, is
    ready for the harvest. *)
Lemma can_transition_to_harvest_ready_witness :
  ∃ r, can_transition_to_harvest (H := externals) (single rice) season_id
         (108 * day) = Ok r ∧
       ready r = true.
Proof.
  apply (proj1 (can_transition_to_harvest_ready (H := externals)
                  (single rice) season_id (108 * day))).
  exists rice, (VDatetime (Naive 0)), 0, "rice",
         [ {[ "priority" := VStr "normal" ]} ].
  split; [apply stored_single|].
  split; [by_evaluation|].
  split; [constructor|].
  split; [exact (crop_named rice "Rice" eq_refl)|].
  split; [by vm_compute|].
  split; [intros health Hh; vm_compute in Hh; injection Hh as <-;
          left; by vm_compute|].
  split; [reflexivity|].
  intros task ->%list_elem_of_singleton. by vm_compute.
Defined.

(** C6, the claim as stated fails: rice on its 108th day whose health
    score is NaN is reported ready, since [health < 50] is false for NaN,
    although its health score is neither absent nor at least 50. *)
Lemma can_transition_to_harvest_nan_health :
  (∃ r, can_transition_to_harvest (H := externals) (single rice_nan)
          season_id (108 * day) = Ok r ∧
        ready r = true) ∧
  ¬ harvest_conditions (H := externals) (single rice_nan) season_id
      (108 * day).
Proof.
  split.
  - exists {| ready := true;
              reasons := [CropAge 108; HealthOk (VFloat S754_nan);
                          NoCriticalPending];
              recommendation := Some "Can transition to harvest" |}.
    split; [by_evaluation|done].
  - intros (season & _ & _ & _ & _ & (o & Ho & Hfind) & _ & _ & _ & _
            & Hhealth & _).
    assert (ObjectId season_id = Ok season_oid) as Hid by by_evaluation.
    rewrite Hid in Ho. injection Ho as <-.
    rewrite seasons_single, lookup_singleton_eq in Hfind.
    injection Hfind as <-.
    exact (Hhealth (VFloat S754_nan) eq_refl).
Qed.

(** On that day the automatic transition moves the season from growth to
    harvest, and the phase read back is harvest. *)
Lemma auto_transition_phases_one_step_witness :
  ∃ db', auto_transition_phases (H := externals) (single rice) season_id
           (108 * day) (108 * day) (108 * day) = Ok (Some "harvest", db') ∧
         get_current_phase (H := externals) db' season_id (109 * day)
           = Ok (VStr "harvest").
Proof.
  destruct (auto_transition_phases_one_step (H := externals)
              (single rice) season_id (108 * day) (108 * day) (108 * day))
    as [Honly Hmove].
  destruct (Hmove (VStr "growth") "harvest") as [db' Hauto].
  - by_evaluation.
  - right; left. split; [done|]. split; [done|].
    exists {| ready := true;
              reasons := [CropAge 108; HealthOk (VInt 80); NoCriticalPending];
              recommendation := Some "Can transition to harvest" |}.
    split; [by_evaluation|done].
  - exists db'. split; [exact Hauto|].
    destruct (Honly _ _ Hauto) as (current & _ & _ & _ & Hafter).
    apply Hafter.
Defined.

(** A fenced empty object gets the four required keys, all None. *)
Lemma analyze_feedback_required_fields_witness :
  ∃ d' : gmap string value,
    analyze_feedback (H := externals) (Ok "```json {} ```")
      "Apply 50kg urea fertilizer" "done" "" = VDict d' ∧
    d' !! "severity" = Some VNone.
Proof.
  destruct (analyze_feedback_required_fields (H := externals)
              "```json {} ```" ∅ "Apply 50kg urea fertilizer" "done" ""
              eq_refl)
    as (d' & Hd' & Hrequired & _).
  exists d'. split; [exact Hd'|].
  apply (Hrequired "severity"); [|reflexivity].
  rewrite !elem_of_cons. tauto.
Defined.

(** C9, the claim as stated fails: the id "abc" matches no document, and
    [get_current_phase] raises [InvalidId] instead of returning
    pre_sowing. *)
Lemma get_current_phase_malformed_id :
  (∀ season, ¬ stored (single rice) "abc" season) ∧
  get_current_phase (H := externals) (single rice) "abc" 0 = Raise InvalidId ∧
  get_current_phase (H := externals) (single rice) "abc" 0
    ≠ Ok (VStr "pre_sowing").
Proof.
  split; [|split].
  - intros season (o & Ho & _). by vm_compute in Ho.
  - by_evaluation.
  - intros Heq. by vm_compute in Heq.
Qed.

(** A well-formed id that matches nothing has the phase pre_sowing, and so
    has a season without a start date; the id "abc" raises. *)
Lemma get_current_phase_missing_witness :
  get_current_phase (H := externals) (single rice) other_id 0
    = Ok (VStr "pre_sowing") ∧
  get_current_phase (H := externals)
    (single {[ "crop_type" := VStr "wheat" ]}) season_id 0
    = Ok (VStr "pre_sowing") ∧
  get_current_phase (H := externals) (single rice) "abc" 0
    = Raise InvalidId.
Proof.
  split; [|split]; [| |
    apply (proj2 (proj2 (get_current_phase_missing (H := externals)
                           (single rice) "abc" 0)));
    by_evaluation].
  - apply (proj1 (get_current_phase_missing (H := externals)
                    (single rice) other_id 0)
                 other_oid);
      by_evaluation.
  - apply (proj1 (proj2 (get_current_phase_missing (H := externals)
                    (single {[ "crop_type" := VStr "wheat" ]}) season_id 0))
                 {[ "crop_type" := VStr "wheat" ]}).
    + apply stored_single.
    + by_evaluation.
    + by_evaluation.
Defined.

(** "flowering" is refused and nothing is written; "harvest" is written. *)
Lemma update_phase_validates_witness :
  update_phase (single rice) season_id "flowering" 0
    = Ok (false, single rice) ∧
  ∃ season', stored (single harvested_rice) season_id season' ∧
             season' !! "current_phase" = Some (VStr "harvest").
Proof.
  split.
  - apply (proj1 (update_phase_validates (single rice) season_id
                    "flowering" 0)).
    rewrite !elem_of_cons, elem_of_nil. intros Hp. by destruct_or!.
  - destruct (proj2 (update_phase_validates (single rice) season_id
                       "harvest" 0) (single harvested_rice))
      as (_ & season & season' & _ & Hstored & _ & Hphase).
    + by_evaluation.
    + by exists season'.
Defined.

(** * Further properties of the phase manager *)

Import Ordering.

Section PhaseExtras.
Context `{Externals}.

(** The phase of a season without a stored phase, as a function of the
    days elapsed. *)
Lemma get_current_phase_dated db season_id (season : document) now t
    start_date crop :
  stored db season_id season →
  season !! "current_phase" = None →
  season !! "start_date" = Some start_date →
  start_instant start_date t →
  crop_key season crop →
  get_current_phase db season_id now =
    let days := elapsed_days now t in
    let info := duration_for crop in
    if days <? 0 then Ok (VStr "pre_sowing")
    else if days <? growth_days info then Ok (VStr "growth")
    else if days <? growth_days info + harvest_window info
    then Ok (VStr "harvest")
    else Ok (VStr "completed").
Proof.
  intros (o & Ho & Hfind) Hphase Hstart Ht Hcrop.
  unfold get_current_phase. rewrite Ho. run.
  unfold find_one. rewrite Hfind.
  rewrite truthy_document, Hphase, Hstart.
  rewrite (start_instant_days now _ _ Ht). run.
  rewrite (crop_key_type _ _ Hcrop). run. done.
Qed.

Lemma update_phase_reads_back db season_id new_phase (season : document)
    now :
  stored db season_id season →
  new_phase ∈ PHASES →
  ∃ ok db',
    update_phase db season_id new_phase now = Ok (ok, db') ∧
    ∀ t, get_current_phase db' season_id t = Ok (VStr new_phase).
Proof.
  intros Hstored Hp. destruct Hstored as (o & Ho & Hfind).
  destruct (update_phase_total db season_id new_phase now o Ho)
    as (ok & db' & Hup).
  exists ok, db'. split; [done|]. intros t.
  destruct (update_phase_sets db season_id new_phase now season ok db')
    as (season' & Hstored' & Hcp); [by exists o|done..|].
  by eapply current_phase_stored.
Qed.

(** X1. Writing a phase and reading it back: for a stored season and one of
    the four phases, [update_phase] returns, and from then on
    [get_current_phase] answers that phase at every time, whether or not
    the call reported a modification. *)
Theorem update_phase_then_get_current_phase
    (db : database) (season_id new_phase : string) (season : document)
    (now : Z) :
  stored db season_id season →
  new_phase ∈ ["pre_sowing"; "growth"; "harvest"; "completed"] →
  ∃ ok db',
    update_phase db season_id new_phase now = Ok (ok, db') ∧
    ∀ t, get_current_phase db' season_id t = Ok (VStr new_phase).
Proof. apply update_phase_reads_back. Qed.

(** X2. What [update_phase] leaves alone: the other collections, every
    other season document, and in the matched document every field but
    [current_phase] and [phase_updated_at]; it neither creates nor removes
    a document. *)
Theorem update_phase_frame
    (db db' : database) (season_id new_phase : string) (now : Z) (ok : bool) :
  update_phase db season_id new_phase now = Ok (ok, db') →
  (∀ name, name ≠ "crop_seasons" → db' !! name = db !! name) ∧
  (∀ o o', ObjectId season_id = Ok o → o' ≠ o →
           seasons_collection db' !! o' = seasons_collection db !! o') ∧
  (∀ o', is_Some (seasons_collection db' !! o') ↔
         is_Some (seasons_collection db !! o')) ∧
  (∀ o' (season season' : document) k,
     seasons_collection db !! o' = Some season →
     seasons_collection db' !! o' = Some season' →
     k ≠ "current_phase" → k ≠ "phase_updated_at" →
     season' !! k = season !! k).
Proof.
  intros Hup. apply update_phase_inv in Hup
    as [(_ & _ & ->)|(Hp & o & Ho & [(_ & _ & ->)|(season & Hfind & Hcase)])].
  1,2: by repeat split; intros; simplify_eq.
  destruct Hcase as [(_ & -> & _)|(_ & _ & ->)].
  { by repeat split; intros; simplify_eq. }
  repeat split.
  - intros name Hname. by rewrite lookup_insert_ne.
  - intros o1 o' Ho1 Hne. assert (o1 = o) as -> by congruence.
    by rewrite seasons_collection_insert, lookup_insert_ne.
  - rewrite seasons_collection_insert.
    destruct (decide (o' = o)) as [->|Hne].
    + rewrite lookup_insert_eq, Hfind. eauto.
    + by rewrite lookup_insert_ne.
  - rewrite seasons_collection_insert.
    destruct (decide (o' = o)) as [->|Hne].
    + rewrite lookup_insert_eq, Hfind. eauto.
    + by rewrite lookup_insert_ne.
  - intros o' s s' k Hs. rewrite seasons_collection_insert.
    destruct (decide (o' = o)) as [->|Hne].
    + rewrite lookup_insert_eq. intros [= <-] Hk1 Hk2.
      assert (s = season) as -> by congruence.
      by apply set_fields_other.
    + rewrite lookup_insert_ne by done. congruence.
Qed.

(** X3. [update_phase] is idempotent: a second call with the same phase
    and the same clock reading changes nothing and reports False, even for
    a valid phase and a stored season. *)
Theorem update_phase_idempotent
    (db db' : database) (season_id new_phase : string) (now : Z) (ok : bool) :
  update_phase db season_id new_phase now = Ok (ok, db') →
  update_phase db' season_id new_phase now = Ok (false, db').
Proof.
  intros Hup. pose proof Hup as Hinv. apply update_phase_inv in Hinv
    as [(_ & -> & ->)|(Hp & o & Ho & [(_ & -> & ->)|(season & Hfind & Hcase)])];
    [done..|].
  destruct Hcase as [(-> & -> & _)|(_ & _ & ->)]; [done|].
  unfold update_phase. rewrite bool_decide_eq_true_2 by done. simpl.
  rewrite Ho. run. unfold update_one. rewrite lookup_insert_eq. simpl.
  rewrite lookup_insert_eq.
  assert (set_fields (phase_update new_phase now) season !! "phase_updated_at"
          = Some (VDatetime (bson_datetime now))) as Hat.
  { unfold set_fields. by apply lookup_union_Some_l. }
  cbn [forallb phase_update fst snd].
  rewrite set_fields_current_phase, Hat. simpl.
  by rewrite !bool_decide_eq_true_2.
Qed.

End PhaseExtras.

Section PhaseExtras2.
Context `{Externals}.

Lemma elapsed_days_mono now now' t :
  now ≤ now' → elapsed_days now t ≤ elapsed_days now' t.
Proof.
  intros Hle. unfold elapsed_days, us_per_day.
  apply Z.div_le_mono; lia.
Qed.

(** X4. The phase computed from the dates never goes back as the clock
    advances: for a season without a stored phase, the phase at a later
    time is the same or a later one in the order pre_sowing, growth,
    harvest, completed. *)
Theorem get_current_phase_monotone
    (db : database) (season_id : string) (season : document)
    (start_date : value) (t : Z) (crop : string) (now now' : Z) :
  stored db season_id season →
  season !! "current_phase" = None →
  season !! "start_date" = Some start_date →
  start_instant start_date t →
  crop_key season crop →
  now ≤ now' →
  ∃ p p',
    get_current_phase db season_id now = Ok (VStr p) ∧
    get_current_phase db season_id now' = Ok (VStr p') ∧
    not_before p p'.
Proof.
  intros Hstored Hphase Hstart Ht Hcrop Hle.
  rewrite !(get_current_phase_dated _ _ _ _ _ _ _ Hstored Hphase Hstart
              Ht Hcrop).
  pose proof (elapsed_days_mono now now' t Hle) as Hd.
  destruct (duration_for_positive crop) as [Hg Hw].
  cbv zeta.
  set (d := elapsed_days now t) in *. set (d' := elapsed_days now' t) in *.
  set (g := growth_days (duration_for crop)) in *.
  set (w := harvest_window (duration_for crop)) in *.
  clearbody d d' g w.
  destruct (Z.ltb_spec d 0), (Z.ltb_spec d g), (Z.ltb_spec d (g + w)),
           (Z.ltb_spec d' 0), (Z.ltb_spec d' g), (Z.ltb_spec d' (g + w));
    try lia; eexists _, _; (split; [done|split; [done|]]).
  all: unfold not_before, PHASES;
    first
      [ solve [exists 0%nat, 0%nat; repeat split; first [reflexivity|lia]]
      | solve [exists 0%nat, 1%nat; repeat split; first [reflexivity|lia]]
      | solve [exists 0%nat, 2%nat; repeat split; first [reflexivity|lia]]
      | solve [exists 0%nat, 3%nat; repeat split; first [reflexivity|lia]]
      | solve [exists 1%nat, 1%nat; repeat split; first [reflexivity|lia]]
      | solve [exists 1%nat, 2%nat; repeat split; first [reflexivity|lia]]
      | solve [exists 1%nat, 3%nat; repeat split; first [reflexivity|lia]]
      | solve [exists 2%nat, 2%nat; repeat split; first [reflexivity|lia]]
      | solve [exists 2%nat, 3%nat; repeat split; first [reflexivity|lia]]
      | solve [exists 3%nat, 3%nat; repeat split; first [reflexivity|lia]] ].
Qed.

(** X5. A season that has not reached nine tenths of its growth days is
    never reported ready, and the first reason of the report counts the
    days that are left to the full growth period, which is more than a
    tenth of that period. *)
Theorem can_transition_to_harvest_too_young
    (db : database) (season_id : string) (season : document)
    (start_date : value) (t : Z) (crop : string) (now : Z) (r : readiness) :
  stored db season_id season →
  season !! "start_date" = Some start_date →
  start_instant start_date t →
  crop_key season crop →
  10 * elapsed_days now t < 9 * growth_days (duration_for crop) →
  can_transition_to_harvest db season_id now = Ok r →
  ready r = false ∧
  (∃ rest, reasons r =
     CropTooYoung (growth_days (duration_for crop) - elapsed_days now t)
       :: rest) ∧
  growth_days (duration_for crop)
    < 10 * (growth_days (duration_for crop) - elapsed_days now t).
Proof.
  intros (o & Ho & Hfind) Hstart Ht Hcrop Hyoung.
  assert (int_lt_float (elapsed_days now t)
            (int_mul_float (growth_days (duration_for crop)) 0.9) = true)
    as Hlt.
  { destruct (int_lt_float _ _) eqn:Hb; [done|].
    apply too_young_iff in Hb. lia. }
  unfold can_transition_to_harvest. rewrite Ho. run.
  unfold find_one. rewrite Hfind, truthy_document, Hstart.
  rewrite (start_instant_days now _ _ Ht). run.
  rewrite (crop_key_type _ _ Hcrop). run. rewrite Hlt. run.
  destruct (season !! "health_score") as [health|]; run;
    [destruct (lt_int health 50) as [[]|]; run; try done|];
    (destruct (get_pending_tasks db season_id) as [tasks|]; run; [|done]);
    (destruct (critical_tasks tasks); intros [= <-]; simpl;
     repeat split; eauto; lia).
Qed.

(** X6. A season whose start date lies in the future has the phase
    pre_sowing, yet [auto_transition_phases] moves it to growth, because a
    start date is all that the first transition asks for. *)
Theorem auto_transition_phases_future_start
    (db : database) (season_id : string) (season : document)
    (start_date : value) (t : Z) (crop : string)
    (t_phase t_check t_write : Z) :
  stored db season_id season →
  season !! "current_phase" = None →
  season !! "start_date" = Some start_date →
  start_instant start_date t →
  crop_key season crop →
  elapsed_days t_phase t < 0 →
  get_current_phase db season_id t_phase = Ok (VStr "pre_sowing") ∧
  ∃ db',
    auto_transition_phases db season_id t_phase t_check t_write
      = Ok (Some "growth", db') ∧
    ∀ t', get_current_phase db' season_id t' = Ok (VStr "growth").
Proof.
  intros Hstored Hphase Hstart Ht Hcrop Hfuture.
  assert (get_current_phase db season_id t_phase = Ok (VStr "pre_sowing"))
    as Hcur.
  { rewrite (get_current_phase_dated _ _ _ _ _ _ _ Hstored Hphase Hstart
               Ht Hcrop). cbv zeta.
    destruct (Z.ltb_spec (elapsed_days t_phase t) 0); [done|lia]. }
  split; [done|].
  destruct (update_phase_reads_back db season_id "growth" season
              t_write Hstored) as (ok & db' & Hup & Hget).
  { apply phases_elem. tauto. }
  exists db'. split; [|done].
  unfold auto_transition_phases. rewrite Hcur. run. simpl.
  destruct Hstored as (o & Ho & Hfind). rewrite Ho. run.
  unfold find_one. rewrite Hfind, truthy_document.
  unfold has_key. rewrite bool_decide_eq_true_2 by eauto.
  rewrite Hup. run. done.
Qed.

(** A call of [auto_transition_phases] that returns a phase: where it
    started and where it ends. *)
Lemma auto_transition_phases_moved db season_id t_phase t_check t_write
    next db' :
  auto_transition_phases db season_id t_phase t_check t_write
    = Ok (Some next, db') →
  ∃ cur, get_current_phase db season_id t_phase = Ok (VStr cur) ∧
         follows cur next ∧
         ∀ t, get_current_phase db' season_id t = Ok (VStr next).
Proof.
  intros Hauto. pose proof Hauto as Hw.
  apply auto_transition_phases_writes in Hw
    as [([=] & _)|(next' & ok & [= <-] & Hnext & Hup)].
  revert Hauto. unfold auto_transition_phases.
  destruct (get_current_phase db season_id t_phase) as [current|] eqn:Hcur;
    run; [|done].
  assert (current ≠ VStr "pre_sowing" →
          ∃ season, stored db season_id season) as Hnot.
  { intros Hne. apply get_current_phase_inv in Hcur
      as (o & Ho & [(_ & ->)|(season & Hfind & _)]); [done|].
    exists season, o. done. }
  assert (∀ cur, current = VStr cur → follows cur next →
          (∃ season, stored db season_id season) →
          ∃ cur, Ok current = Ok (VStr cur) ∧ follows cur next ∧
            ∀ t, get_current_phase db' season_id t = Ok (VStr next))
    as Hdone.
  { intros cur -> Hf (season & Hstored). exists cur.
    split; [done|]. split; [done|]. intros t.
    destruct (update_phase_sets _ _ _ _ _ _ _ Hstored Hnext Hup)
      as (season' & Hstored' & Hcp).
    by eapply current_phase_stored. }
  destruct (get_current_phase_id _ _ _ _ Hcur) as [o Ho].
  destruct (eq_str current "pre_sowing") eqn:Hpre;
    [|destruct (eq_str current "growth") eqn:Hgrowth;
      [|destruct (eq_str current "harvest") eqn:Hharvest]].
  - apply eq_str_true in Hpre as ->. rewrite Ho. run.
    destruct (truthy _) as [season|] eqn:Hfind; [|done].
    apply truthy_Some in Hfind.
    destruct (has_key _ _); [|done].
    destruct (update_phase db season_id "growth" t_write) as [[? ?]|];
      run; [|done].
    intros [= <- _]. apply (Hdone "pre_sowing"); [done|by exists 0%nat|].
    exists season, o. done.
  - apply eq_str_true in Hgrowth as ->.
    destruct (can_transition_to_harvest _ _ _) as [rd|]; run; [|done].
    destruct (ready rd); [|done].
    destruct (update_phase db season_id "harvest" t_write) as [[? ?]|];
      run; [|done].
    intros [= <- _]. apply (Hdone "growth"); [done|by exists 1%nat|].
    by apply Hnot.
  - apply eq_str_true in Hharvest as ->. rewrite Ho. run.
    destruct (truthy _) as [season|] eqn:Hfind; [|done].
    destruct (has_key _ _); [|done].
    destruct (update_phase db season_id "completed" t_write) as [[? ?]|];
      run; [|done].
    intros [= <- _]. apply (Hdone "harvest"); [done|by exists 2%nat|].
    by apply Hnot.
  - done.
Qed.

Lemma follows_functional cur next next' :
  follows cur next → follows cur next' → next = next'.
Proof.
  intros (i & Hi & Hn) (j & Hj & Hn').
  assert (i = j) as ->; [|congruence].
  unfold PHASES in *.
  repeat (destruct i as [|i]; simplify_eq/=);
    repeat (destruct j as [|j]; simplify_eq/=); done.
Qed.

Lemma follows_completed next : ¬ follows "completed" next.
Proof.
  intros (i & Hi & Hn). unfold PHASES in *.
  repeat (destruct i as [|i]; simplify_eq/=).
Qed.

(** X7. The automatic transitions walk the lifecycle in order and stop at
    its end: after a call that moved the season to a phase, the next call,
    at any time, either changes nothing or moves it to the phase right
    after; after a move to completed it always changes nothing. *)
Theorem auto_transition_phases_successive
    (db db' db'' : database) (season_id p : string) (r : option string)
    (t_phase t_check t_write t_phase' t_check' t_write' : Z) :
  auto_transition_phases db season_id t_phase t_check t_write
    = Ok (Some p, db') →
  auto_transition_phases db' season_id t_phase' t_check' t_write'
    = Ok (r, db'') →
  ((r = None ∧ db'' = db') ∨ (∃ p', r = Some p' ∧ follows p p')) ∧
  (p = "completed" → r = None ∧ db'' = db').
Proof.
  intros Hfirst Hsecond.
  apply auto_transition_phases_moved in Hfirst as (cur & _ & _ & Hafter).
  assert ((r = None ∧ db'' = db') ∨ (∃ p', r = Some p' ∧ follows p p'))
    as Hcases.
  { destruct r as [p'|].
    - right. exists p'. split; [done|].
      apply auto_transition_phases_moved in Hsecond
        as (cur' & Hcur' & Hf & _).
      rewrite Hafter in Hcur'. by injection Hcur' as ->.
    - left. split; [done|].
      apply auto_transition_phases_writes in Hsecond
        as [(_ & ->)|(? & ? & [=] & _)]. done. }
  split; [done|]. intros ->.
  destruct Hcases as [?|(p' & _ & Hf)]; [done|].
  by apply follows_completed in Hf.
Qed.

End PhaseExtras2.

(** * Properties of the reports *)

Import PhaseReports.

Section ReportExtras.
Context `{Externals} `{Formats}.

Lemma start_datetime_instant start_date t :
  start_instant start_date t → start_datetime_of start_date = Ok (Naive t).
Proof. by intros [t'|s t' Hs]. Qed.

(** The dates of the summary of a season with a well-formed start date. *)
Lemma get_phase_summary_dated db season_id (season : document) start_date t
    crop t_phase t_now t_check :
  stored db season_id season →
  season !! "start_date" = Some start_date →
  start_instant start_date t →
  crop_key season crop →
  get_phase_summary db season_id t_phase t_now t_check =
    current_phase ← get_current_phase db season_id t_phase;
    harvest_readiness ←
      (if eq_str current_phase "growth" then
         readiness ← can_transition_to_harvest db season_id t_check;
         Ok (Some readiness)
       else Ok None);
    Ok (Summary {|
      summary_season_id := season_id;
      summary_current_phase := current_phase;
      summary_crop_type := default (VStr "unknown") (season !! "crop_type");
      summary_days_elapsed := Some (elapsed_days t_now t);
      summary_expected_harvest_in_days :=
        Some (Z.max 0 (growth_days (duration_for crop)
                       - elapsed_days t_now t));
      summary_start_date := Some (isoformat (Naive t));
      summary_expected_harvest_date := season !! "expected_harvest_date";
      summary_harvest_readiness := harvest_readiness
    |}).
Proof.
  intros (o & Ho & Hfind) Hstart Ht Hcrop.
  unfold get_phase_summary. rewrite Ho. run.
  unfold find_one. rewrite Hfind, truthy_document, Hstart.
  rewrite (start_datetime_instant _ _ Ht). run.
  rewrite (crop_key_type _ _ Hcrop). run. done.
Qed.

(** X8. The days to the harvest in a summary are never negative: they are
    the days left to the growth period of the crop, and 0 from the day the
    period is over. *)
Theorem get_phase_summary_days_left
    (db : database) (season_id : string) (season : document)
    (start_date : value) (t : Z) (crop : string)
    (t_phase t_now t_check : Z) (s : phase_summary) :
  stored db season_id season →
  season !! "start_date" = Some start_date →
  start_instant start_date t →
  crop_key season crop →
  get_phase_summary db season_id t_phase t_now t_check = Ok (Summary s) →
  let g := growth_days (duration_for crop) in
  ∃ d e,
    summary_days_elapsed s = Some d ∧
    summary_expected_harvest_in_days s = Some e ∧
    d = elapsed_days t_now t ∧
    0 ≤ e ∧
    (e = 0 ↔ g ≤ d) ∧
    (d < g → d + e = g).
Proof.
  intros Hstored Hstart Ht Hcrop.
  rewrite (get_phase_summary_dated _ _ _ _ _ _ _ _ _ Hstored Hstart Ht Hcrop).
  destruct (get_current_phase db season_id t_phase) as [current|]; run;
    [|done].
  destruct (eq_str current "growth");
    [destruct (can_transition_to_harvest _ _ _); run; [|done]|];
    intros [= <-]; simpl; eexists _, _;
    (split; [done|]); (split; [done|]); lia.
Qed.

(** X9. Without a stored phase and with one clock reading, the summary is
    consistent: in the growth phase some days are left and the readiness
    report is attached; in the harvest and completed phases no day is left
    and no report is attached; before the start more days are left than
    the whole growth period. *)
Theorem get_phase_summary_consistent
    (db : database) (season_id : string) (season : document)
    (start_date : value) (t : Z) (crop : string)
    (now t_check : Z) (s : phase_summary) :
  stored db season_id season →
  season !! "current_phase" = None →
  season !! "start_date" = Some start_date →
  start_instant start_date t →
  crop_key season crop →
  get_phase_summary db season_id now now t_check = Ok (Summary s) →
  ∃ e, summary_expected_harvest_in_days s = Some e ∧
    ((summary_current_phase s = VStr "pre_sowing" ∧
      growth_days (duration_for crop) < e ∧
      summary_harvest_readiness s = None) ∨
     (summary_current_phase s = VStr "growth" ∧ 0 < e ∧
      e ≤ growth_days (duration_for crop) ∧
      ∃ r, summary_harvest_readiness s = Some r ∧
           can_transition_to_harvest db season_id t_check = Ok r) ∨
     ((summary_current_phase s = VStr "harvest" ∨
       summary_current_phase s = VStr "completed") ∧ e = 0 ∧
      summary_harvest_readiness s = None)).
Proof.
  intros Hstored Hphase Hstart Ht Hcrop.
  rewrite (get_phase_summary_dated _ _ _ _ _ _ _ _ _ Hstored Hstart Ht Hcrop).
  rewrite (get_current_phase_dated _ _ _ _ _ _ _ Hstored Hphase Hstart
             Ht Hcrop). cbv zeta.
  destruct (duration_for_positive crop) as [Hg Hw].
  destruct (Z.ltb_spec (elapsed_days now t) 0);
    [|destruct (Z.ltb_spec (elapsed_days now t)
                  (growth_days (duration_for crop)));
      [|destruct (Z.ltb_spec (elapsed_days now t)
                   (growth_days (duration_for crop)
                    + harvest_window (duration_for crop)))]]; run; simpl.
  - intros [= <-]. simpl. eexists. split; [done|]. left.
    repeat split; first [done|lia].
  - destruct (can_transition_to_harvest db season_id t_check) as [r|]
      eqn:Hr; run; [|done].
    intros [= <-]. simpl. eexists. split; [done|]. right; left.
    split; [done|]. split; [lia|]. split; [lia|]. by exists r.
  - intros [= <-]. simpl. eexists. split; [done|]. right; right.
    repeat split; first [by left|done|lia].
  - intros [= <-]. simpl. eexists. split; [done|]. right; right.
    repeat split; first [by right|done|lia].
Qed.

(** X10. An id that matches no document: the summary is the error reply,
    while the phase is pre_sowing and the recommendations are those of the
    pre-sowing phase. *)
Theorem missing_season_reports
    (db : database) (season_id : string) (o : oid)
    (t_phase t_now t_check : Z) :
  ObjectId season_id = Ok o →
  seasons_collection db !! o = None →
  get_phase_summary db season_id t_phase t_now t_check = Ok SummaryError ∧
  get_current_phase db season_id t_phase = Ok (VStr "pre_sowing") ∧
  get_phase_recommendations db season_id t_phase t_now
    = Ok pre_sowing_advice.
Proof.
  intros Ho Hfind.
  assert (get_current_phase db season_id t_phase = Ok (VStr "pre_sowing"))
    as Hcur.
  { unfold get_current_phase. rewrite Ho. run.
    unfold find_one. by rewrite Hfind. }
  repeat split; [|done|].
  - unfold get_phase_summary. rewrite Ho. run.
    unfold find_one. by rewrite Hfind.
  - unfold get_phase_recommendations. rewrite Hcur. run. rewrite Ho. run.
    done.
Qed.

(** X11. The list of recommendations is empty in exactly two cases: the
    phase read is not one of the four phases, or it is growth and the
    season has no start date. *)
Theorem get_phase_recommendations_empty
    (db : database) (season_id : string) (t_phase t_now : Z)
    (recommendations : list string) :
  get_phase_recommendations db season_id t_phase t_now
    = Ok recommendations →
  ∃ current,
    get_current_phase db season_id t_phase = Ok current ∧
    (recommendations = [] ↔
     ¬ is_phase current ∨
     (current = VStr "growth" ∧
      ¬ ∃ season, stored db season_id season ∧
                  is_Some (season !! "start_date"))).
Proof.
  unfold get_phase_recommendations.
  destruct (get_current_phase db season_id t_phase) as [current|] eqn:Hcur;
    run; [|done].
  destruct (ObjectId season_id) as [o|] eqn:Ho; run; [|done].
  cbv zeta. intros Hrecs. exists current. split; [done|]. revert Hrecs.
  assert (∀ p, p ∈ PHASES → p ≠ "growth" →
            ¬ (¬ is_phase (VStr p) ∨
               (VStr p = VStr "growth" ∧
                ¬ ∃ season, stored db season_id season ∧
                            is_Some (season !! "start_date")))) as Hno.
  { intros p Hp Hne [Hnot|([= ->] & _)]; [|done].
    apply Hnot. by exists p. }
  destruct (eq_str current "pre_sowing") eqn:Hpre;
    [|destruct (eq_str current "growth") eqn:Hgrowth;
      [|destruct (eq_str current "harvest") eqn:Hharvest;
        [|destruct (eq_str current "completed") eqn:Hcompleted]]].
  - apply eq_str_true in Hpre as ->. intros [= <-].
    split; [done|]. intros Hc. exfalso. revert Hc.
    apply Hno; [apply phases_elem; tauto|done].
  - apply eq_str_true in Hgrowth as ->.
    pose proof (season_has_key db season_id o "start_date" Ho) as Hkey.
    destruct (truthy _) as [season|] eqn:Hfind.
    + destruct (season !! "start_date") as [sd|] eqn:Hsd.
      * assert (∃ s, stored db season_id s ∧ is_Some (s !! "start_date"))
          as Hs.
        { apply Hkey. exists season. split; [done|].
          apply has_key_Some. rewrite Hsd. eauto. }
        destruct (start_datetime_of sd) as [dt|]; run; [|done].
        destruct (days_since t_now dt) as [d|]; run; [|done].
        repeat case_match; intros [= <-];
          (split; [done|]); intros [Hnot|(_ & Hnot)]; try done;
          exfalso; apply Hnot; exists "growth";
          (split; [done|apply phases_elem; tauto]).
      * intros [= <-]. split; [|done]. intros _. right. split; [done|].
        intros Hs. apply Hkey in Hs as (s & [= <-] & Hk).
        apply has_key_Some in Hk. rewrite Hsd in Hk. by destruct Hk.
    + intros [= <-]. split; [|done]. intros _. right. split; [done|].
      intros Hs. by apply Hkey in Hs as (s & [=] & _).
  - apply eq_str_true in Hharvest as ->. intros [= <-].
    split; [done|]. intros Hc. exfalso. revert Hc.
    apply Hno; [apply phases_elem; tauto|done].
  - apply eq_str_true in Hcompleted as ->. intros [= <-].
    split; [done|]. intros Hc. exfalso. revert Hc.
    apply Hno; [apply phases_elem; tauto|done].
  - intros [= <-]. split; [|done]. intros _. left.
    intros (p & -> & Hp). apply phases_elem in Hp.
    destruct Hp as [-> | [-> | [-> | ->]]];
      vm_compute in Hpre, Hgrowth, Hharvest, Hcompleted; done.
Qed.

(** X12. A season whose phase comes from the dates gets the advice of
    late growth exactly when the first clock reading of the call, that of
    [get_current_phase], falls in the growth period of its crop and the
    second, that of line 266, on day 60 or later. For a crop whose growth
    period is 60 days or less (moong dal, cucumber, lettuce) the second
    reading is then later than the first and falls on a later day of the
    season: the advice appears only when a day ends between the two
    readings, and never when both are the same instant. *)
Theorem late_growth_advice_across_days
    (db : database) (season_id : string) (season : document)
    (start_date : value) (t : Z) (crop : string) (t_phase t_now : Z)
    (recommendations : list string) :
  stored db season_id season →
  season !! "current_phase" = None →
  season !! "start_date" = Some start_date →
  start_instant start_date t →
  crop_key season crop →
  get_phase_recommendations db season_id t_phase t_now
    = Ok recommendations →
  (recommendations = late_growth_advice ↔
   0 ≤ elapsed_days t_phase t < growth_days (duration_for crop) ∧
   60 ≤ elapsed_days t_now t) ∧
  (growth_days (duration_for crop) ≤ 60 →
   recommendations = late_growth_advice →
   elapsed_days t_phase t < elapsed_days t_now t ∧ t_phase < t_now).
Proof.
  intros Hstored Hphase Hstart Ht Hcrop.
  unfold get_phase_recommendations.
  rewrite (get_current_phase_dated _ _ _ _ _ _ _ Hstored Hphase Hstart
             Ht Hcrop). cbv zeta.
  destruct Hstored as (o & Ho & Hfind).
  destruct (Z.ltb_spec (elapsed_days t_phase t) 0);
    [|destruct (Z.ltb_spec (elapsed_days t_phase t)
                  (growth_days (duration_for crop)));
      [|destruct (Z.ltb_spec (elapsed_days t_phase t)
                   (growth_days (duration_for crop)
                    + harvest_window (duration_for crop)))]];
    run; rewrite Ho; run; simpl.
  - intros [= <-]. split; [split; [done|lia]|done].
  - unfold find_one. rewrite Hfind, truthy_document, Hstart.
    rewrite (start_datetime_instant _ _ Ht). run. simpl.
    fold (elapsed_days t_now t).
    destruct (Z.ltb_spec (elapsed_days t_now t) 20);
      [intros [= <-]; split; [split; [done|lia]|done]|].
    destruct (Z.ltb_spec (elapsed_days t_now t) 60);
      [intros [= <-]; split; [split; [done|lia]|done]|].
    intros [= <-]. split; [split; [lia|done]|].
    intros Hshort _. split; [lia|].
    destruct (Z.lt_ge_cases t_phase t_now) as [|Hge]; [done|].
    pose proof (elapsed_days_mono _ _ t Hge). lia.
  - intros [= <-]. split; [split; [done|lia]|done].
  - intros [= <-]. split; [split; [done|lia]|done].
Qed.

End ReportExtras.

(** * Properties of the feedback pipeline *)

Import FeedbackReports.

(** Unfold one step of the monad of outcomes. *)
Ltac run_outcome :=
  cbn [mbind outcome_mbind FeedbackPipeline.outcome_bind of_result].

Section FeedbackExtras.
Context `{Externals} `{Formats}.

(** The entry that [calculate_impact_metrics] reads is within the range of
    the table. *)
Lemma impact_entry_range deviation_type severity :
  let i := default {| yield := 0; timeline := 0 |}
             (default ∅ (impact_table !! deviation_type) !! severity) in
  -20 ≤ yield i ≤ 0 ∧ 0 ≤ timeline i ≤ 7.
Proof.
  unfold impact_table.
  destruct (list_to_map _ !! deviation_type) as [row|] eqn:Hrow; simpl;
    [|rewrite lookup_empty; simpl; lia].
  apply elem_of_list_to_map_2 in Hrow.
  rewrite !elem_of_cons, elem_of_nil in Hrow.
  destruct_or!; try done; simplify_eq;
    (destruct (list_to_map _ !! severity) as [i|] eqn:Hi; simpl; [|lia];
     apply elem_of_list_to_map_2 in Hi;
     rewrite !elem_of_cons, elem_of_nil in Hi;
     destruct_or!; try done; simplify_eq; simpl; lia).
Qed.

Lemma estimates_calculate deviation_type severity crop_type :
  estimates (calculate_impact_metrics deviation_type severity crop_type) =
  let i := default {| yield := 0; timeline := 0 |}
             (default ∅ (impact_table !! deviation_type) !! severity) in
  low_confidence (yield i) (timeline i).
Proof. reflexivity. Qed.

Lemma impact_entry_order deviation_type :
  let entry severity :=
    default {| yield := 0; timeline := 0 |}
      (default ∅ (impact_table !! deviation_type) !! severity) in
  yield (entry "major") ≤ yield (entry "moderate") ∧
  yield (entry "moderate") ≤ yield (entry "minor") ∧
  timeline (entry "minor") ≤ timeline (entry "moderate") ∧
  timeline (entry "moderate") ≤ timeline (entry "major").
Proof.
  unfold impact_table.
  destruct (list_to_map _ !! deviation_type) as [row|] eqn:Hrow; simpl;
    [|rewrite !lookup_empty; simpl; lia].
  apply elem_of_list_to_map_2 in Hrow.
  rewrite !elem_of_cons, elem_of_nil in Hrow.
  destruct_or!; try done; simplify_eq; repeat split; by vm_compute.
Qed.

(** X13. Whatever the arguments, the estimated yield change lies between
    -20 and 0 percent and the estimated timeline change between 0 and 7
    days: a deviation is never estimated to help. *)
Theorem calculate_impact_metrics_range
    (deviation_type severity crop_type : string) :
  ∃ y t,
    estimates (calculate_impact_metrics deviation_type severity crop_type)
      = low_confidence y t ∧
    -20 ≤ y ≤ 0 ∧ 0 ≤ t ≤ 7.
Proof.
  pose proof (impact_entry_range deviation_type severity) as Hrange.
  rewrite estimates_calculate. cbv zeta in *.
  eexists _, _. split; [reflexivity|done].
Qed.

(** X14. For every deviation type the estimates worsen with the severity:
    the yield change of a major deviation is at most that of a moderate
    one, which is at most that of a minor one, and the timeline change
    grows in the same order. *)
Theorem calculate_impact_metrics_severity_order
    (deviation_type crop_type : string) (y1 t1 y2 t2 y3 t3 : Z) :
  estimates (calculate_impact_metrics deviation_type "minor" crop_type)
    = low_confidence y1 t1 →
  estimates (calculate_impact_metrics deviation_type "moderate" crop_type)
    = low_confidence y2 t2 →
  estimates (calculate_impact_metrics deviation_type "major" crop_type)
    = low_confidence y3 t3 →
  y3 ≤ y2 ≤ y1 ∧ t1 ≤ t2 ≤ t3.
Proof.
  rewrite !estimates_calculate. cbv zeta.
  intros [= <- <-] [= <- <-] [= <- <-].
  pose proof (impact_entry_order deviation_type) as Horder.
  cbv beta zeta in Horder. lia.
Qed.

Lemma fallback_fields planned_action farmer_response :
  let d := _fallback_analysis planned_action farmer_response in
  (∃ b, d !! "is_deviation" = Some (VBool b) ∧
        (if b
         then d !! "deviation_type" = Some (VStr "unknown") ∧
              d !! "severity" = Some (VStr "moderate")
         else d !! "severity" = Some (VStr "none"))) ∧
  is_Some (d !! "actual_action") ∧
  is_Some (d !! "impact_summary") ∧
  d !! "planned_action" = None.
Proof.
  unfold _fallback_analysis.
  destruct (any_in completion_keywords _ && negb _).
  - split; [by exists false|]. by repeat split; eauto.
  - split; [by exists true|]. by repeat split; eauto.
Qed.

(** A value that is no dictionary comes out of the validation loop as it
    went in. *)
Lemma validate_other fields v r :
  (∀ d, v ≠ VDict d) →
  validate fields v = Ok r → r = v.
Proof.
  intros Hv. induction fields as [|field fields IH]; cbn [validate].
  { by intros [= <-]. }
  destruct (py_in field v) as [[]|] eqn:Hin; run; [done| |done].
  destruct v; simpl; try done. by destruct (Hv d).
Qed.

Lemma validate_required v (a : gmap string value) :
  validate required_fields v = Ok (VDict a) →
  ∃ d : gmap string value, v = VDict d ∧
    (∀ field, field ∈ required_fields → is_Some (a !! field)) ∧
    (∀ k, k ∉ required_fields → a !! k = d !! k).
Proof.
  intros Hv.
  assert (∃ d, v = VDict d) as [d ->].
  { destruct v; eauto;
      apply validate_other in Hv; done. }
  exists d. split; [done|].
  destruct (validate_dict required_fields d) as (d' & Hd' & Hlookup).
  rewrite Hd' in Hv. injection Hv as <-. split.
  - intros field Hf. rewrite Hlookup, bool_decide_eq_true_2; eauto.
  - intros k Hk. by rewrite Hlookup, bool_decide_eq_false_2.
Qed.

Lemma required_elem field :
  field ∈ required_fields ↔
  field = "completed_as_planned" ∨ field = "actual_action" ∨
  field = "is_deviation" ∨ field = "severity".
Proof. unfold required_fields. rewrite !elem_of_cons, elem_of_nil. tauto. Qed.

(** The dictionaries that [analyze_feedback] can return. *)
Lemma analyze_feedback_dict reply planned_action farmer_response
    task_description (a : gmap string value) :
  analyze_feedback reply planned_action farmer_response task_description
    = VDict a →
  a = _fallback_analysis planned_action farmer_response ∨
  (∃ res, parse_reply reply = Ok (VDict a) ∧
          validate required_fields res = Ok (VDict a)).
Proof.
  unfold analyze_feedback.
  destruct (parse_reply reply) as [res|] eqn:Hparse.
  - intros ->. right. revert Hparse. unfold parse_reply.
    destruct reply as [content|]; run; [|done].
    destruct (json_loads _) as [res|]; run; [|done]. eauto.
  - intros [= <-]. by left.
Qed.

Lemma analyze_feedback_keys reply planned_action farmer_response
    task_description (a : gmap string value) :
  analyze_feedback reply planned_action farmer_response task_description
    = VDict a →
  is_Some (a !! "actual_action") ∧ is_Some (a !! "is_deviation") ∧
  is_Some (a !! "severity").
Proof.
  intros [->|(res & _ & Hv)]%analyze_feedback_dict.
  - destruct (fallback_fields planned_action farmer_response)
      as ((b & Hb & Hsev) & Ha & _).
    repeat split; [done|eauto|]. destruct b; [destruct Hsev|]; eauto.
  - apply validate_required in Hv as (d & _ & Hreq & _).
    repeat split; apply Hreq, required_elem; tauto.
Qed.

(** X15. [process_task_feedback] never fails on a missing key: whatever
    the language model replies, the call returns or raises [TypeError]. *)
Theorem process_task_feedback_no_key_error
    (reply : result string)
    (planned_action farmer_response task_description crop_type : string) :
  (∃ analysis impact_metrics,
     process_task_feedback reply planned_action farmer_response
       task_description crop_type = Returns (analysis, impact_metrics)) ∨
  process_task_feedback reply planned_action farmer_response
    task_description crop_type = Raises TypeError.
Proof.
  unfold process_task_feedback. cbv zeta.
  destruct (analyze_feedback reply planned_action farmer_response
              task_description) as [| | | | | | | |a] eqn:Ha;
    try (by right).
  destruct (analyze_feedback_keys _ _ _ _ _ Ha)
    as (_ & [dev Hdev] & [sev Hsev]).
  simpl. rewrite Hdev. run_outcome.
  destruct (truth dev); [|left; eauto].
  rewrite Hsev. run_outcome.
  unfold calculate_impact_metrics_on_values.
  destruct (hashable _); simpl; [|by right].
  destruct (hashable sev); simpl; [|by right].
  left. eauto.
Qed.

(** X16. When the language model or the decoding of its reply fails,
    [process_task_feedback] returns the keyword fallback; its impact
    metrics are empty when the task counts as done as planned, and
    otherwise estimate a change of 0 percent and 0 days, since "unknown"
    is no deviation type of the table. *)
Theorem process_task_feedback_fallback
    (reply : result string)
    (planned_action farmer_response task_description crop_type : string) :
  ((∃ e, reply = Raise e) ∨
   (∃ content e, reply = Ok content ∧
                 json_loads (strip_code_fence content) = Raise e)) →
  ∃ impact_metrics : document,
    process_task_feedback reply planned_action farmer_response
      task_description crop_type
    = Returns (VDict (_fallback_analysis planned_action farmer_response),
               impact_metrics) ∧
    ((_fallback_analysis planned_action farmer_response !! "is_deviation"
        = Some (VBool false) ∧ impact_metrics = ∅) ∨
     (_fallback_analysis planned_action farmer_response !! "is_deviation"
        = Some (VBool true) ∧
      estimates impact_metrics = low_confidence 0 0)).
Proof.
  intros Hraise.
  assert (analyze_feedback reply planned_action farmer_response
            task_description
          = VDict (_fallback_analysis planned_action farmer_response)) as Ha.
  { unfold analyze_feedback, parse_reply.
    destruct Hraise as [(e & ->)|(content & e & -> & Hjson)]; run; [done|].
    by rewrite Hjson. }
  unfold process_task_feedback. cbv zeta. rewrite Ha.
  destruct (fallback_fields planned_action farmer_response)
    as ((b & Hb & Hsev) & _).
  cbv zeta in Hb, Hsev. simpl. rewrite Hb. run_outcome.
  destruct b; simpl.
  - destruct Hsev as [Hty Hsev]. rewrite Hty, Hsev. run_outcome. simpl.
    eexists. split; [done|]. right. split; [done|reflexivity].
  - eexists. split; [done|]. by left.
Qed.

(** X17. For a reply that decodes to an object: a falsy or missing
    [is_deviation] gives empty impact metrics; a truthy one with a [str]
    type and severity gives the metrics of [calculate_impact_metrics]; a
    truthy one with a missing severity gives 0 percent and 0 days. *)
Theorem process_task_feedback_object
    (content : string) (d : gmap string value)
    (planned_action farmer_response task_description crop_type : string) :
  json_loads (strip_code_fence content) = Ok (VDict d) →
  let flag := truth (default VNone (d !! "is_deviation")) in
  let call :=
    process_task_feedback (Ok content) planned_action farmer_response
      task_description crop_type in
  (flag = false → ∃ a, call = Returns (VDict a, ∅)) ∧
  (flag = true →
   ∀ deviation_type severity,
     d !! "deviation_type" = Some (VStr deviation_type) →
     d !! "severity" = Some (VStr severity) →
     ∃ a, call = Returns (VDict a,
                          calculate_impact_metrics deviation_type severity
                                                   crop_type)) ∧
  (flag = true → d !! "severity" = None →
   hashable (default VNone (d !! "deviation_type")) = true →
   ∃ a m, call = Returns (VDict a, m) ∧ estimates m = low_confidence 0 0).
Proof.
  intros Hjson flag call.
  destruct (validate_dict required_fields d) as (a & Hv & Ha).
  assert (analyze_feedback (Ok content) planned_action farmer_response
            task_description = VDict a) as Han.
  { unfold analyze_feedback, parse_reply. run. rewrite Hjson. run.
    by rewrite Hv. }
  assert (a !! "is_deviation" = Some (default VNone (d !! "is_deviation")))
    as Hdev by (by rewrite Ha).
  assert (a !! "severity" = Some (default VNone (d !! "severity")))
    as Hsev by (by rewrite Ha).
  assert (a !! "deviation_type" = d !! "deviation_type")
    as Hty by (by rewrite Ha).
  unfold call, process_task_feedback. cbv zeta. rewrite Han. simpl.
  rewrite Hdev. run_outcome. fold flag. rewrite Hsev, Hty.
  repeat split.
  - intros ->. eauto.
  - intros -> deviation_type severity Hd Hs. rewrite Hd, Hs. simpl.
    run_outcome. eauto.
  - intros -> Hs Hhash. rewrite Hs. simpl. run_outcome.
    unfold calculate_impact_metrics_on_values.
    destruct (d !! "deviation_type") as [ty|]; simpl in *.
    + rewrite Hhash. simpl. eauto.
    + eauto.
Qed.

End FeedbackExtras.

Section PromptExtras.
Context `{Externals} `{Formats}.

(** X18. [generate_adaptation_prompt] returns a prompt exactly when the
    analysis has the keys actual_action, severity and impact_summary;
    otherwise it raises [KeyError] for the first of them that is missing,
    and it raises nothing else. The keys planned_action and deviation_type
    may be absent. *)
Theorem generate_adaptation_prompt_keys
    (deviation_analysis : document) (current_plan crop_type : string) :
  let call :=
    generate_adaptation_prompt deviation_analysis current_plan crop_type in
  ((∃ prompt, call = Returns prompt) ↔
   is_Some (deviation_analysis !! "actual_action") ∧
   is_Some (deviation_analysis !! "severity") ∧
   is_Some (deviation_analysis !! "impact_summary")) ∧
  (∀ key, call = RaisesKeyError key ↔
     (key = "actual_action" ∧
      deviation_analysis !! "actual_action" = None) ∨
     (key = "severity" ∧
      is_Some (deviation_analysis !! "actual_action") ∧
      deviation_analysis !! "severity" = None) ∨
     (key = "impact_summary" ∧
      is_Some (deviation_analysis !! "actual_action") ∧
      is_Some (deviation_analysis !! "severity") ∧
      deviation_analysis !! "impact_summary" = None)) ∧
  (∀ e, call ≠ Raises e).
Proof.
  intros call. unfold call, generate_adaptation_prompt. cbv zeta.
  cbn [getitem].
  destruct (deviation_analysis !! "actual_action") as [a|]; run_outcome;
    [destruct (deviation_analysis !! "severity") as [s|]; run_outcome;
     [destruct (deviation_analysis !! "impact_summary") as [i|];
      run_outcome|]|];
    (split; [|split; [|done]]).
  - split; [intros _; eauto|intros _; eexists; reflexivity].
  - intros key. split; [done|].
    by intros [(_ & [=])|[(_ & _ & [=])|(_ & _ & _ & [=])]].
  - split; [by intros [p [=]]|by intros (_ & _ & [x [=]])].
  - intros key. split.
    + intros [= <-]. right; right. eauto.
    + by intros [(_ & [=])|[(_ & _ & [=])|(-> & _)]].
  - split; [by intros [p [=]]|by intros (_ & [x [=]] & _)].
  - intros key. split.
    + intros [= <-]. right; left. eauto.
    + by intros [(_ & [=])|[(-> & _)|(_ & _ & [x [=]] & _)]].
  - split; [by intros [p [=]]|by intros ([x [=]] & _)].
  - intros key. split.
    + intros [= <-]. by left.
    + by intros [(-> & _)|[(_ & [x [=]] & _)|(_ & [x [=]] & _)]].
Qed.

(** X19. After [analyze_feedback] the only key that the prompt can miss is
    impact_summary, which the validation does not require: the call
    returns a prompt or raises [KeyError] for that key; it always returns
    for the keyword fallback. *)
Theorem generate_adaptation_prompt_after_analysis
    (reply : result string)
    (planned_action farmer_response task_description : string)
    (a : gmap string value) (current_plan crop_type : string) :
  analyze_feedback reply planned_action farmer_response task_description
    = VDict a →
  ((∃ prompt,
      generate_adaptation_prompt a current_plan crop_type = Returns prompt) ∨
   (generate_adaptation_prompt a current_plan crop_type
      = RaisesKeyError "impact_summary" ∧
    a !! "impact_summary" = None)) ∧
  (a = _fallback_analysis planned_action farmer_response →
   ∃ prompt,
     generate_adaptation_prompt a current_plan crop_type = Returns prompt).
Proof.
  intros Ha.
  destruct (analyze_feedback_keys _ _ _ _ _ Ha)
    as ([act Hact] & _ & [sev Hsev]).
  unfold generate_adaptation_prompt. cbv zeta. cbn [getitem].
  rewrite Hact, Hsev. run_outcome. split.
  - destruct (a !! "impact_summary") as [i|] eqn:Hi; run_outcome.
    + left. eauto.
    + by right.
  - intros ->.
    destruct (fallback_fields planned_action farmer_response)
      as (_ & _ & [imp Himp] & _).
    cbv zeta in Himp. rewrite Himp. run_outcome. eauto.
Qed.

Lemma contains_prefix s sub :
  String.prefix sub s = true → contains s sub = true.
Proof. intros Hp. destruct s; cbn [contains]; by rewrite Hp. Qed.

Lemma contains_append_r a s sub :
  contains s sub = true → contains (a ++ s) sub = true.
Proof.
  intros Hs. induction a as [|c a IH]; [done|].
  change (contains (String c a ++ s) sub)
    with (String.prefix sub (String c (a ++ s)) || contains (a ++ s) sub).
  rewrite IH. apply orb_true_r.
Qed.

(** X20. The planned action never reaches the prompt through the keyword
    fallback: the fallback analysis has no planned_action key, so the
    prompt built from it reads "PLANNED ACTION: N/A", whatever was
    planned. *)
Theorem generate_adaptation_prompt_planned_action
    (planned_action farmer_response current_plan crop_type : string) :
  ∃ prompt,
    generate_adaptation_prompt
      (_fallback_analysis planned_action farmer_response)
      current_plan crop_type = Returns prompt ∧
    contains prompt "PLANNED ACTION: N/A" = true.
Proof.
  destruct (fallback_fields planned_action farmer_response)
    as (Hdev & [act Hact] & [imp Himp] & Hplan).
  assert (∃ sev, _fallback_analysis planned_action farmer_response
                   !! "severity" = Some sev) as [sev Hsev].
  { destruct Hdev as (b & _ & Hb). destruct b; [destruct Hb|]; eauto. }
  cbv zeta in Hact, Himp, Hplan.
  unfold generate_adaptation_prompt. cbv zeta. cbn [getitem].
  rewrite Hact, Hsev, Himp, Hplan. run_outcome.
  eexists. split; [done|].
  do 5 apply contains_append_r. apply contains_prefix. reflexivity.
Qed.

End PromptExtras.

(** * Further examples *)

Import MoreFixtures.

(** Rice is put into the harvest phase and read back. *)
Lemma update_phase_then_get_current_phase_witness :
  ∃ ok db',
    update_phase (single rice) season_id "harvest" 0 = Ok (ok, db') ∧
    ∀ t, get_current_phase (H := externals) db' season_id t
           = Ok (VStr "harvest").
Proof.
  apply (update_phase_then_get_current_phase (H := externals)
           (single rice) season_id "harvest" rice 0).
  - apply stored_single.
  - apply phases_elem. tauto.
Defined.

Lemma season_oids_differ : other_oid ≠ season_oid.
Proof. intros Heq. by vm_compute in Heq. Qed.

Lemma update_rice_to_harvest :
  update_phase (single rice) season_id "harvest" 0
    = Ok (true, single harvested_rice).
Proof. by_evaluation. Qed.

(** The write to rice leaves the other ids and the other collections as
    they were. *)
Lemma update_phase_frame_witness :
  (∀ name, name ≠ "crop_seasons" →
           single harvested_rice !! name = single rice !! name) ∧
  seasons_collection (single harvested_rice) !! other_oid
    = seasons_collection (single rice) !! other_oid.
Proof.
  destruct (update_phase_frame (single rice) (single harvested_rice)
              season_id "harvest" 0 true update_rice_to_harvest)
    as (Hcollections & Hseasons & _).
  split; [exact Hcollections|].
  apply (Hseasons season_oid other_oid); [by_evaluation|].
  exact season_oids_differ.
Defined.

(** The same write once more reports False. *)
Lemma update_phase_idempotent_witness :
  update_phase (single harvested_rice) season_id "harvest" 0
    = Ok (false, single harvested_rice).
Proof.
  exact (update_phase_idempotent (single rice) (single harvested_rice)
           season_id "harvest" 0 true update_rice_to_harvest).
Defined.

(** From day 119 to day 121 rice goes from growth to harvest. *)
Lemma get_current_phase_monotone_witness :
  ∃ p p',
    get_current_phase (H := externals) (single rice) season_id (119 * day)
      = Ok (VStr p) ∧
    get_current_phase (H := externals) (single rice) season_id (121 * day)
      = Ok (VStr p') ∧
    Ordering.not_before p p'.
Proof.
  apply (get_current_phase_monotone (H := externals) (single rice) season_id
           rice (VDatetime (Naive 0)) 0 "rice").
  - apply stored_single.
  - by_evaluation.
  - by_evaluation.
  - constructor.
  - exact (crop_named rice "Rice" eq_refl).
  - by vm_compute.
Defined.

(** On day 107 rice is too young by 13 days. *)
Lemma can_transition_to_harvest_too_young_witness :
  ready {| ready := false;
           reasons := [CropTooYoung 13; HealthOk (VInt 80);
                       NoCriticalPending];
           recommendation := Some "Continue growth phase" |} = false ∧
  (∃ rest,
     [CropTooYoung 13; HealthOk (VInt 80); NoCriticalPending] =
     CropTooYoung (growth_days (duration_for "rice")
                   - elapsed_days (107 * day) 0) :: rest) ∧
  growth_days (duration_for "rice")
    < 10 * (growth_days (duration_for "rice") - elapsed_days (107 * day) 0).
Proof.
  apply (can_transition_to_harvest_too_young (H := externals)
           (single rice) season_id rice (VDatetime (Naive 0)) 0 "rice"
           (107 * day)
           {| ready := false;
              reasons := [CropTooYoung 13; HealthOk (VInt 80);
                          NoCriticalPending];
              recommendation := Some "Continue growth phase" |}).
  - apply stored_single.
  - by_evaluation.
  - constructor.
  - exact (crop_named rice "Rice" eq_refl).
  - by vm_compute.
  - by_evaluation.
Defined.

(** Rice to be sown in ten days is moved to growth today. *)
Lemma auto_transition_phases_future_start_witness :
  get_current_phase (H := externals) (single planned_rice) season_id 0
    = Ok (VStr "pre_sowing") ∧
  ∃ db',
    auto_transition_phases (H := externals) (single planned_rice) season_id
      0 0 0 = Ok (Some "growth", db') ∧
    ∀ t', get_current_phase (H := externals) db' season_id t'
            = Ok (VStr "growth").
Proof.
  apply (auto_transition_phases_future_start (H := externals)
           (single planned_rice) season_id planned_rice
           (VStr "1970-01-11") (10 * day) "rice").
  - apply stored_single.
  - by_evaluation.
  - by_evaluation.
  - by constructor.
  - exact (crop_named planned_rice "rice" eq_refl).
  - by vm_compute.
Defined.

(** After the move to the harvest on day 108, the call of day 109 changes
    nothing, for want of an actual harvest date. *)
Lemma auto_transition_phases_successive_witness :
  ((@None string = None ∧
    single auto_harvested_rice = single auto_harvested_rice) ∨
   (∃ p', @None string = Some p' ∧ follows "harvest" p')) ∧
  ("harvest" = "completed" →
   @None string = None ∧
   single auto_harvested_rice = single auto_harvested_rice).
Proof.
  apply (auto_transition_phases_successive (H := externals)
           (single rice) (single auto_harvested_rice)
           (single auto_harvested_rice) season_id "harvest" None
           (108 * day) (108 * day) (108 * day)
           (109 * day) (109 * day) (109 * day)); by_evaluation.
Defined.

(** The summary of rice on day 125. *)
Lemma rice_summary_day_125 :
  get_phase_summary (H := externals) (H0 := formats) (single rice) season_id
    (125 * day) (125 * day) (125 * day)
  = Ok (Summary {|
      summary_season_id := season_id;
      summary_current_phase := VStr "harvest";
      summary_crop_type := VStr "Rice";
      summary_days_elapsed := Some 125;
      summary_expected_harvest_in_days := Some 0;
      summary_start_date := Some "1970-01-01T00:00:00";
      summary_expected_harvest_date := None;
      summary_harvest_readiness := None |}).
Proof. by_evaluation. Qed.

(** On day 125 no day is left to the harvest of rice. *)
Lemma get_phase_summary_days_left_witness :
  ∃ d e,
    Some 125 = Some d ∧ Some 0 = Some e ∧
    d = elapsed_days (125 * day) 0 ∧ 0 ≤ e ∧
    (e = 0 ↔ growth_days (duration_for "rice") ≤ d) ∧
    (d < growth_days (duration_for "rice") →
     d + e = growth_days (duration_for "rice")).
Proof.
  exact (get_phase_summary_days_left (H := externals) (H0 := formats)
           (single rice) season_id rice (VDatetime (Naive 0)) 0 "rice"
           (125 * day) (125 * day) (125 * day) _
           (stored_single rice) eq_refl (instant_datetime 0)
           (crop_named rice "Rice" eq_refl) rice_summary_day_125).
Defined.

(** On day 125 the summary of rice is that of the harvest phase. *)
Lemma get_phase_summary_consistent_witness :
  ∃ e, Some 0 = Some e ∧
    ((VStr "harvest" = VStr "pre_sowing" ∧
      growth_days (duration_for "rice") < e ∧
      @None readiness = None) ∨
     (VStr "harvest" = VStr "growth" ∧ 0 < e ∧
      e ≤ growth_days (duration_for "rice") ∧
      ∃ r, @None readiness = Some r ∧
           can_transition_to_harvest (H := externals) (single rice)
             season_id (125 * day) = Ok r) ∨
     ((VStr "harvest" = VStr "harvest" ∨ VStr "harvest" = VStr "completed") ∧
      e = 0 ∧ @None readiness = None)).
Proof.
  exact (get_phase_summary_consistent (H := externals) (H0 := formats)
           (single rice) season_id rice (VDatetime (Naive 0)) 0 "rice"
           (125 * day) (125 * day) _
           (stored_single rice) eq_refl eq_refl (instant_datetime 0)
           (crop_named rice "Rice" eq_refl) rice_summary_day_125).
Defined.

(** An id that matches nothing in the database of rice. *)
Lemma missing_season_reports_witness :
  get_phase_summary (H := externals) (H0 := formats) (single rice) other_id
    0 0 0 = Ok SummaryError ∧
  get_current_phase (H := externals) (single rice) other_id 0
    = Ok (VStr "pre_sowing") ∧
  get_phase_recommendations (H := externals) (single rice) other_id 0 0
    = Ok pre_sowing_advice.
Proof.
  apply (missing_season_reports (H := externals) (H0 := formats)
           (single rice) other_id other_oid); by_evaluation.
Defined.

(** A season in the growth phase without a start date gets no advice. *)
Lemma get_phase_recommendations_empty_witness :
  ∃ current,
    get_current_phase (H := externals) (single undated) season_id 0
      = Ok current ∧
    (@nil string = [] ↔
     ¬ is_phase current ∨
     (current = VStr "growth" ∧
      ¬ ∃ season, stored (single undated) season_id season ∧
                  is_Some (season !! "start_date"))).
Proof.
  apply (get_phase_recommendations_empty (H := externals)
           (single undated) season_id 0 0 []).
  by_evaluation.
Defined.

(** Moong dal whose phase is read in the last microsecond of day 59 and
    whose age is read at the start of day 60 gets the advice of late
    growth, and the two readings are on different days. *)
Lemma late_growth_advice_across_days_witness :
  get_phase_recommendations (H := externals) (single moong_dal) season_id
    (60 * day - 1) (60 * day) = Ok late_growth_advice ∧
  elapsed_days (60 * day - 1) 0 < elapsed_days (60 * day) 0 ∧
  60 * day - 1 < 60 * day.
Proof.
  assert (get_phase_recommendations (H := externals) (single moong_dal)
            season_id (60 * day - 1) (60 * day) = Ok late_growth_advice)
    as Hrecs by by_evaluation.
  split; [exact Hrecs|].
  apply (proj2 (late_growth_advice_across_days (H := externals)
                  (single moong_dal) season_id moong_dal
                  (VDatetime (Naive 0)) 0 "moong_dal"
                  (60 * day - 1) (60 * day) late_growth_advice
                  (stored_single moong_dal) eq_refl eq_refl
                  (instant_datetime 0)
                  (crop_named moong_dal "moong_dal" eq_refl) Hrecs)).
  - by vm_compute.
  - reflexivity.
Defined.

(** A major delay: -15 percent and 7 days. *)
Lemma calculate_impact_metrics_range_witness :
  ∃ y t,
    estimates (calculate_impact_metrics "delay" "major" "rice")
      = low_confidence y t ∧
    -20 ≤ y ≤ 0 ∧ 0 ≤ t ≤ 7.
Proof. exact (calculate_impact_metrics_range "delay" "major" "rice"). Defined.

(** The three severities of a delay. *)
Lemma calculate_impact_metrics_severity_order_witness :
  -15 ≤ -5 ≤ -1 ∧ 1 ≤ 3 ≤ 7.
Proof.
  apply (calculate_impact_metrics_severity_order "delay" "rice");
    by_evaluation.
Defined.

(** A reply that is no JSON. *)
Lemma process_task_feedback_no_key_error_witness :
  (∃ analysis impact_metrics,
     process_task_feedback (H := externals) (Ok "not json")
       "Apply 50kg urea fertilizer" "I forgot" "" "rice"
     = Returns (analysis, impact_metrics)) ∨
  process_task_feedback (H := externals) (Ok "not json")
    "Apply 50kg urea fertilizer" "I forgot" "" "rice" = Raises TypeError.
Proof.
  exact (process_task_feedback_no_key_error (H := externals) (Ok "not json")
           "Apply 50kg urea fertilizer" "I forgot" "" "rice").
Defined.

(** "I forgot" with the service down: a deviation of no estimated impact. *)
Lemma process_task_feedback_fallback_witness :
  ∃ impact_metrics : document,
    process_task_feedback (H := externals) (Raise ServiceError)
      "Apply 50kg urea fertilizer" "I forgot" "" "rice"
    = Returns (VDict (_fallback_analysis "Apply 50kg urea fertilizer"
                                         "I forgot"),
               impact_metrics) ∧
    ((_fallback_analysis "Apply 50kg urea fertilizer" "I forgot"
        !! "is_deviation" = Some (VBool false) ∧ impact_metrics = ∅) ∨
     (_fallback_analysis "Apply 50kg urea fertilizer" "I forgot"
        !! "is_deviation" = Some (VBool true) ∧
      estimates impact_metrics = low_confidence 0 0)).
Proof.
  apply (process_task_feedback_fallback (H := externals)).
  left. by exists ServiceError.
Defined.

(** The empty object has no [is_deviation]: no impact metrics. *)
Lemma process_task_feedback_object_witness :
  ∃ a, process_task_feedback (H := externals) (Ok "{}")
         "Apply 50kg urea fertilizer" "done" "" "rice"
       = Returns (VDict a, ∅).
Proof.
  apply (proj1 (process_task_feedback_object (H := externals) "{}" ∅
                  "Apply 50kg urea fertilizer" "done" "" "rice" eq_refl)).
  reflexivity.
Defined.

(** An analysis without a severity raises [KeyError] for that key. *)
Lemma generate_adaptation_prompt_keys_witness :
  generate_adaptation_prompt (H0 := formats)
    {[ "actual_action" := VStr "Applied cow dung" ]} "Week 1: sow" "rice"
  = RaisesKeyError "severity".
Proof.
  apply (proj1 (proj2 (generate_adaptation_prompt_keys (H0 := formats)
                         {[ "actual_action" := VStr "Applied cow dung" ]}
                         "Week 1: sow" "rice"))).
  right; left. split; [done|]. split; [by eexists|done].
Defined.

Lemma analysis_of_empty_object :
  analyze_feedback (H := externals) (Ok "{}") "Apply 50kg urea fertilizer"
    "done" "" = VDict bare_analysis.
Proof. by_evaluation. Qed.

(** The analysis of the empty object passes the validation and still
    makes the prompt fail. *)
Lemma generate_adaptation_prompt_after_analysis_witness :
  generate_adaptation_prompt (H0 := formats) bare_analysis "Week 1: sow"
    "rice" = RaisesKeyError "impact_summary".
Proof.
  destruct (proj1 (generate_adaptation_prompt_after_analysis
                     (H := externals) (H0 := formats) (Ok "{}")
                     "Apply 50kg urea fertilizer" "done" "" bare_analysis
                     "Week 1: sow" "rice"
                     analysis_of_empty_object))
    as [(prompt & Hprompt)|(Hkey & _)].
  - by vm_compute in Hprompt.
  - exact Hkey.
Defined.

(** The prompt for "I forgot" does not name the planned urea. *)
Lemma generate_adaptation_prompt_planned_action_witness :
  ∃ prompt,
    generate_adaptation_prompt (H0 := formats)
      (_fallback_analysis "Apply 50kg urea fertilizer" "I forgot")
      "Week 1: sow" "rice" = Returns prompt ∧
    contains prompt "PLANNED ACTION: N/A" = true.
Proof.
  exact (generate_adaptation_prompt_planned_action (H0 := formats)
           "Apply 50kg urea fertilizer" "I forgot" "Week 1: sow" "rice").
Defined.
